(** * EasyOCR HTTP service ([docker/ocr_server.py]): a shallow embedding

    The service is one Flask module with two handlers, [predict]
    ([POST /predict/ocr]) and [health] ([GET /]).  The handlers are embedded
    as functions in a state-and-exception monad over the part of the world
    they touch: the files of the temporary directory and the calls made to
    the recognition model.  Everything the handlers take from their platform
    (the model, the outcome of file operations) is a field of the record
    [platform], so that every theorem holds for every model and every
    pattern of I/O failures. *)

From Stdlib Require Import ZArith List String Ascii Lia.
From Stdlib Require Import Floats.SpecFloat.
From stdpp Require Import gmap strings stringmap pretty list fin_maps.

Local Open Scope string_scope.
Local Open Scope Z_scope.

(** ** Exceptions and results *)

(** A raised instance of a subclass of Python's [Exception]: its class name
    and the text [str(e)] gives for it. *)
Record exn := Exn { exc_class : string; exc_str : string }.

Inductive result (A : Type) : Type :=
| Ok (a : A)
| Raise (e : exn).
Arguments Ok {A} a.
Arguments Raise {A} e.

Definition rbind {A B} (r : result A) (k : A -> result B) : result B :=
  match r with
  | Ok a => k a
  | Raise e => Raise e
  end.

Declare Scope result_scope.
Delimit Scope result_scope with result.
Notation "'let?' x ':=' r 'in' k" := (rbind r (fun x => k))
  (at level 10, x pattern, r at level 100, k at level 200) : result_scope.
Local Open Scope result_scope.

(** ** Python values *)

Module Py.

(** The values a parsed JSON body is made of, which are also the values a
    handler hands to [jsonify].  A [dict] is the list of its items in
    insertion order; the keys of a parsed body are distinct. *)
#[local] Unset Elimination Schemes.
Inductive pyval : Type :=
| PNone
| PBool (b : bool)
| PInt (n : Z)
| PFloat (f : spec_float)
| PStr (s : string)
| PList (l : list pyval)
| PDict (d : list (string * pyval)).
#[local] Set Elimination Schemes.

(** [type(v).__name__] *)
Definition type_name (v : pyval) : string :=
  match v with
  | PNone => "NoneType"
  | PBool _ => "bool"
  | PInt _ => "int"
  | PFloat _ => "float"
  | PStr _ => "str"
  | PList _ => "list"
  | PDict _ => "dict"
  end.

(** [bool(v)], the test behind [if not v]. *)
Definition truthy (v : pyval) : bool :=
  match v with
  | PNone => false
  | PBool b => b
  | PInt n => negb (n =? 0)
  | PFloat (S754_zero _) => false
  | PFloat _ => true
  | PStr s => negb (String.eqb s "")
  | PList l => match l with [] => false | _ => true end
  | PDict d => match d with [] => false | _ => true end
  end.

(** [d[k]] for a key that may be absent. *)
Fixpoint lookup_item (k : string) (d : list (string * pyval)) : option pyval :=
  match d with
  | [] => None
  | (k', v) :: d' => if String.eqb k k' then Some v else lookup_item k d'
  end.

(** [data.get(k, default)]: only a dict has the method. *)
Definition get (data : pyval) (k : string) (default : pyval) : result pyval :=
  match data with
  | PDict d => Ok (match lookup_item k d with Some v => v | None => default end)
  | _ => Raise (Exn "AttributeError"
                  ("'" +:+ type_name data +:+ "' object has no attribute 'get'"))
  end.

(** The items a [for] loop over [v] visits: the elements of a list, the
    characters of a string, the keys of a dict; other values do not iterate. *)
Definition iter (v : pyval) : result (list pyval) :=
  match v with
  | PList l => Ok l
  | PStr s => Ok (map (fun c => PStr (String c EmptyString)) (list_ascii_of_string s))
  | PDict d => Ok (map (fun kv => PStr (fst kv)) d)
  | _ => Raise (Exn "TypeError" ("'" +:+ type_name v +:+ "' object is not iterable"))
  end.

(** A number as the model hands it out (a numpy integer or float). *)
Inductive num : Type :=
| NumInt (n : Z)
| NumFloat (f : spec_float).

(** The value of the finite float with sign [s], mantissa [m] and exponent
    [e] is the fraction of these two integers; the second is positive. *)
Definition fraction (s : bool) (m : positive) (e : Z) : Z * Z :=
  (cond_Zopp s (Z.pos m) * 2 ^ Z.max 0 e, 2 ^ Z.max 0 (- e)).

(** [int(x)]: an integer is kept, a float is truncated towards zero; the
    floats that are not numbers of finite size have no integer. *)
Definition int (x : num) : result Z :=
  match x with
  | NumInt n => Ok n
  | NumFloat (S754_zero _) => Ok 0
  | NumFloat (S754_finite s m e) =>
      let (n, d) := fraction s m e in Ok (n ÷ d)
  | NumFloat (S754_infinity _) =>
      Raise (Exn "OverflowError" "cannot convert float infinity to integer")
  | NumFloat S754_nan =>
      Raise (Exn "ValueError" "cannot convert float NaN to integer")
  end.

(** [float(x)] of a floating-point number is the same number. *)
Definition float (x : spec_float) : spec_float := x.

(** [str(s)] of a string is the same string. *)
Definition str (s : string) : string := s.

(** [p[i]] on a list. *)
Definition getitem {A} (p : list A) (i : nat) : result A :=
  match nth_error p i with
  | Some x => Ok x
  | None => Raise (Exn "IndexError" "list index out of range")
  end.

(** [v[k]] read off a value, where [v] is a dict that has the key. *)
Definition field (k : string) (v : pyval) : option pyval :=
  match v with
  | PDict d => lookup_item k d
  | _ => None
  end.

(** A float whose value lies between 0 and 1, both included. *)
Definition in_unit_interval (f : spec_float) : bool :=
  match f with
  | S754_zero _ => true
  | S754_finite false m e => let (n, d) := fraction false m e in n <=? d
  | _ => false
  end.

End Py.
Import Py.

(** ** [base64.b64decode] *)

Module Base64.

(** Bytes are integers in [0, 256). *)
Definition byte_of_ascii (c : ascii) : Z := Z.of_N (N_of_ascii c).

(** [table_a2b_base64]: the 6-bit value of an alphabet character, and 255
    (the entry -1 stored in an unsigned char) for every other byte. *)
Definition table_a2b_base64 (c : Z) : Z :=
  if (65 <=? c) && (c <=? 90) then c - 65
  else if (97 <=? c) && (c <=? 122) then c - 71
  else if (48 <=? c) && (c <=? 57) then c + 4
  else if c =? 43 then 62
  else if c =? 47 then 63
  else 255.

Definition BASE64_PAD : Z := 61.

(** The store into an unsigned char. *)
Definition u8 (z : Z) : Z := Z.land z 255.

(** The decoding loop of [binascii.a2b_base64] with [strict_mode] off:
    characters outside the alphabet are skipped, a pad that completes a
    quad ends the decoding, and what follows it is not read. *)
Fixpoint a2b_loop (data : list Z) (quad_pos : nat) (leftchar : Z) (pads : nat)
    (bin_data : list Z) : result (list Z) :=
  match data with
  | [] =>
      match quad_pos with
      | O => Ok bin_data
      | 1%nat =>
          Raise (Exn "binascii.Error"
                   ("Invalid base64-encoded string: number of data characters ("
                    +:+ pretty (length bin_data / 3 * 4 + 1)%nat
                    +:+ ") cannot be 1 more than a multiple of 4"))
      | _ => Raise (Exn "binascii.Error" "Incorrect padding")
      end
  | this_ch :: rest =>
      if this_ch =? BASE64_PAD then
        if (2 <=? quad_pos)%nat then
          if (4 <=? quad_pos + S pads)%nat then Ok bin_data
          else a2b_loop rest quad_pos leftchar (S pads) bin_data
        else a2b_loop rest quad_pos leftchar pads bin_data
      else
        let this_ch := table_a2b_base64 this_ch in
        if 64 <=? this_ch then a2b_loop rest quad_pos leftchar pads bin_data
        else
          match quad_pos with
          | O => a2b_loop rest 1 this_ch 0 bin_data
          | 1%nat =>
              a2b_loop rest 2 (Z.land this_ch 15) 0
                (bin_data ++ [u8 (Z.lor (Z.shiftl leftchar 2) (Z.shiftr this_ch 4))])
          | 2%nat =>
              a2b_loop rest 3 (Z.land this_ch 3) 0
                (bin_data ++ [u8 (Z.lor (Z.shiftl leftchar 4) (Z.shiftr this_ch 2))])
          | _ =>
              a2b_loop rest 0 0 0
                (bin_data ++ [u8 (Z.lor (Z.shiftl leftchar 6) this_ch)])
          end
  end.

Definition a2b_base64 (data : list Z) : result (list Z) :=
  a2b_loop data 0 0 0 [].

Definition is_ascii (s : string) : bool :=
  forallb (fun c => byte_of_ascii c <? 128) (list_ascii_of_string s).

(** [base64.b64decode(s)] with its defaults ([validate=False]): a string
    must be ASCII; a value that is neither text nor bytes is a type error. *)
Definition b64decode (s : pyval) : result (list Z) :=
  match s with
  | PStr s =>
      if is_ascii s then a2b_base64 (map byte_of_ascii (list_ascii_of_string s))
      else Raise (Exn "ValueError" "string argument should contain only ASCII characters")
  | _ => Raise (Exn "TypeError"
                  ("argument should be a bytes-like object or ASCII string, not '"
                   +:+ type_name s +:+ "'"))
  end.

End Base64.
Import Base64.

(** ** The platform: temporary files and the recognition model *)

(** One detection of the model: the corner points of the text region, the
    text read in it and the confidence of the reading. *)
Record detection := Detection {
  bbox : list (list num);
  text : string;
  confidence : spec_float;
}.

(** What the service does not decide itself.  [reader] is what
    [reader.readtext] answers for a file holding the given bytes: a list of
    detections or an exception.  [open_fault] and [write_fault] say, for
    the files present, whether creating a temporary file, or writing and
    closing it, fails; a failed write leaves a prefix of the data. *)
Record platform := Platform {
  reader : list Z -> result (list detection);
  open_fault : gmap string (list Z) -> option exn;
  write_fault : gmap string (list Z) -> list Z -> option (exn * nat);
}.

(** The state a request runs in: the files of the temporary directory, by
    path, and the paths [reader.readtext] was called on, oldest first. *)
Record world := World {
  files : gmap string (list Z);
  readtext_calls : list string;
}.

(** Computations that read and change the world and may raise. *)
Definition M (A : Type) : Type := world -> result A * world.

Definition ret {A} (a : A) : M A := fun w => (Ok a, w).

Definition bind {A B} (m : M A) (k : A -> M B) : M B :=
  fun w =>
    match m w with
    | (Ok a, w') => k a w'
    | (Raise e, w') => (Raise e, w')
    end.

Definition lift {A} (r : result A) : M A := fun w => (r, w).

(** [try: body finally: cleanup]: the cleanup runs on both exits of the
    body; an exception of the cleanup replaces the outcome of the body. *)
Definition try_finally {A} (body : M A) (cleanup : M unit) : M A :=
  fun w =>
    let (r, w1) := body w in
    match cleanup w1 with
    | (Ok _, w2) => (r, w2)
    | (Raise e, w2) => (Raise e, w2)
    end.

(** [try: body except Exception as e: handler(e)] *)
Definition try_except {A} (body : M A) (handler : exn -> M A) : M A :=
  fun w =>
    match body w with
    | (Ok a, w') => (Ok a, w')
    | (Raise e, w') => handler e w'
    end.

Declare Scope monad_scope.
Delimit Scope monad_scope with monad.
Notation "x <- m ;; k" := (bind m (fun x => k))
  (at level 100, m at next level, right associativity) : monad_scope.
Notation "m ;;; k" := (bind m (fun _ => k))
  (at level 100, right associativity) : monad_scope.
Local Open Scope monad_scope.

Module Tempfile.

(** The names [tempfile] tries: directory, prefix, a varying part, suffix. *)
Definition candidate (suffix : string) (n : nat) : string :=
  "/tmp/tmp" +:+ pretty n +:+ suffix.

(** The first candidate from [n] on that names no file; [fuel] candidates
    may be passed over. *)
Fixpoint first_free (fs : gmap string (list Z)) (suffix : string) (fuel n : nat)
    : string :=
  match fs !! candidate suffix n, fuel with
  | Some _, S fuel' => first_free fs suffix fuel' (S n)
  | _, _ => candidate suffix n
  end.

Definition mkstemp (fs : gmap string (list Z)) (suffix : string) : string :=
  first_free fs suffix (size fs) 0.

End Tempfile.

Section Service.

Variable P : platform.

(** [tempfile.NamedTemporaryFile(suffix=..., delete=False)]: a new empty
    file under a name no file has; [f.name] is returned. *)
Definition NamedTemporaryFile (suffix : string) : M string :=
  fun w =>
    match open_fault P (files w) with
    | Some e => (Raise e, w)
    | None =>
        let name := Tempfile.mkstemp (files w) suffix in
        (Ok name, World (<[name := []]> (files w)) (readtext_calls w))
    end.

(** [f.write(data)] and the close at the end of the [with] block. *)
Definition write (name : string) (data : list Z) : M unit :=
  fun w =>
    match write_fault P (files w) data with
    | Some (e, n) =>
        (Raise e, World (<[name := take n data]> (files w)) (readtext_calls w))
    | None => (Ok tt, World (<[name := data]> (files w)) (readtext_calls w))
    end.

(** [os.remove(path)] *)
Definition os_remove (path : string) : M unit :=
  fun w =>
    match files w !! path with
    | Some _ => (Ok tt, World (delete path (files w)) (readtext_calls w))
    | None =>
        (Raise (Exn "FileNotFoundError"
                  ("[Errno 2] No such file or directory: '" +:+ path +:+ "'")), w)
    end.

(** [reader.readtext(path)]: the call is recorded, and the model answers
    for the bytes of the file. *)
Definition readtext (path : string) : M (list detection) :=
  fun w =>
    let w' := World (files w) (readtext_calls w ++ [path]) in
    match files w !! path with
    | Some content => (reader P content, w')
    | None =>
        (Raise (Exn "FileNotFoundError"
                  ("[Errno 2] No such file or directory: '" +:+ path +:+ "'")), w')
    end.

(** *** The handlers *)

(** The request as the handler reads it: [request.json], which raises for
    a body that is not JSON. *)
Record request := Request { json : result pyval }.

(** What a handler returns: the value given to [jsonify] and the status. *)
Record response := Response { body : pyval; status_code : Z }.

Definition jsonify (d : list (string * pyval)) : pyval := PDict d.

(** [[[int(p[0]), int(p[1])] for p in bbox]] *)
Fixpoint bbox_list (bbox : list (list num)) : result (list pyval) :=
  match bbox with
  | [] => Ok []
  | p :: bbox' =>
      let? p0 := getitem p 0 in
      let? x := int p0 in
      let? p1 := getitem p 1 in
      let? y := int p1 in
      let? tl := bbox_list bbox' in
      Ok (PList [PInt x; PInt y] :: tl)
  end.

(** The loop [for item in ocr_result], on the three lists it appends to. *)
Fixpoint for_items (ocr_result : list detection)
    (dt_polys rec_texts rec_scores : list pyval)
    : result (list pyval * list pyval * list pyval) :=
  match ocr_result with
  | [] => Ok (dt_polys, rec_texts, rec_scores)
  | item :: ocr_result' =>
      let? bl := bbox_list (bbox item) in
      for_items ocr_result'
        (dt_polys ++ [PList bl])
        (rec_texts ++ [PStr (str (text item))])
        (rec_scores ++ [PFloat (float (confidence item))])
  end.

(** The item of one image: the three lists under their keys. *)
Definition result_item (ocr_result : list detection) : result pyval :=
  let? lists := for_items ocr_result [] [] [] in
  let '(dt_polys, rec_texts, rec_scores) := lists in
  Ok (PDict [("dt_polys", PList dt_polys);
             ("rec_texts", PList rec_texts);
             ("rec_scores", PList rec_scores)]).

(** One turn of the loop [for img_b64 in images], up to the item that is
    appended to [results]. *)
Definition image_item (img_b64 : pyval) : M pyval :=
  img_data <- lift (b64decode img_b64);;
  temp_path <- (f <- NamedTemporaryFile ".png";;
                write f img_data;;;
                ret f);;
  ocr_result <- try_finally (readtext temp_path) (os_remove temp_path);;
  lift (result_item ocr_result).

(** The loop [for img_b64 in images], on the list [results] it appends to. *)
Fixpoint for_images (images : list pyval) (results : list pyval)
    : M (list pyval) :=
  match images with
  | [] => ret results
  | img_b64 :: images' =>
      item <- image_item img_b64;;
      for_images images' (results ++ [item])
  end.

(** The body of the [try] of [predict]. *)
Definition predict_try (request : request) : M response :=
  data <- lift (json request);;
  images <- lift (get data "images" (PList []));;
  if negb (truthy images) then
    ret (Response (jsonify [("status", PStr "error");
                            ("msg", PStr "No images provided")]) 400)
  else
    images <- lift (iter images);;
    results <- for_images images [];;
    ret (Response (jsonify [("status", PStr "000");
                            ("results", PList results)]) 200).

(** [POST /predict/ocr].  The trace printed by the handler of the
    exception goes to the diagnostic output, which is not part of [world]. *)
Definition predict (request : request) : M response :=
  try_except (predict_try request)
    (fun e => ret (Response (jsonify [("status", PStr "error");
                                      ("msg", PStr (exc_str e))]) 500)).

(** [GET /] *)
Definition health : M response :=
  ret (Response (jsonify [("status", PStr "ok");
                          ("service", PStr "EasyOCR");
                          ("languages", PList [PStr "ch_sim"; PStr "en"])]) 200).

End Service.

(** ** Platforms to run the service on *)

Definition png_signature : list Z := [137; 80; 78; 71; 13; 10; 26; 10].

Definition sample_detection : detection :=
  Detection [[NumInt 10; NumInt 12];
             [NumFloat (S754_finite false 205 (-1)); NumInt 12];
             [NumFloat (S754_finite false 205 (-1)); NumFloat (S754_finite false 121 (-2))];
             [NumInt 10; NumFloat (S754_finite true 121 (-2))]]
            "Lemon" (S754_finite false 7 (-3)).

(** A model that reads one line of text in every file that starts with the
    PNG signature and rejects every other file. *)
Definition png_reader (content : list Z) : result (list detection) :=
  if bool_decide (take 8 content = png_signature) then Ok [sample_detection]
  else Raise (Exn "OSError" "cannot identify image file").

(** No file operation fails. *)
Definition sound_platform : platform :=
  Platform png_reader (fun _ => None) (fun _ _ => None).

(** The volume of the temporary directory is full: a file can be created,
    no byte can be written to it. *)
Definition full_platform : platform :=
  Platform png_reader (fun _ => None)
    (fun _ data =>
       match data with
       | [] => None
       | _ => Some (Exn "OSError" "[Errno 28] No space left on device", O)
       end).

(** A model that gives up on every file with an exception without text,
    as a bare [assert] does. *)
Definition mute_platform : platform :=
  Platform (fun _ => Raise (Exn "AssertionError" "")) (fun _ => None)
    (fun _ _ => None).

Definition empty_world : world := World ∅ [].

Definition png_b64 : string := "iVBORw0KGgo=".

(** A request with one image, and the world after it has been served. *)
Definition one_png : list (string * pyval) := [("images", PList [PStr png_b64])].

Definition one_png_request : request := Request (Ok (PDict one_png)).

Definition served_world : world := World ∅ ["/tmp/tmp0.png"].

(** ** Responses *)

Definition no_images : response :=
  Response (PDict [("status", PStr "error"); ("msg", PStr "No images provided")]) 400.

Definition failure (e : exn) : response :=
  Response (PDict [("status", PStr "error"); ("msg", PStr (exc_str e))]) 500.

Definition success (results : list pyval) : response :=
  Response (PDict [("status", PStr "000"); ("results", PList results)]) 200.

(** ** What the items are made of *)

(** [pt] is the pair of the truncated first two coordinates of [p]. *)
Definition point_of (p : list num) (pt : pyval) : Prop :=
  exists p0 p1 x y,
    nth_error p 0 = Some p0 /\ nth_error p 1 = Some p1 /\
    int p0 = Ok x /\ int p1 = Ok y /\ pt = PList [PInt x; PInt y].

(** [q] is the list of the points of the region of [d]. *)
Definition quad_of (d : detection) (q : pyval) : Prop :=
  exists bl, q = PList bl /\ Forall2 point_of (bbox d) bl.

(** [item] is the item of the detections [dets]. *)
Definition item_of (dets : list detection) (item : pyval) : Prop :=
  exists dt,
    item = PDict [("dt_polys", PList dt);
                  ("rec_texts", PList (map (fun d => PStr (text d)) dets));
                  ("rec_scores", PList (map (fun d => PFloat (confidence d)) dets))]
    /\ Forall2 quad_of dets dt.

(** [z] is [x] with its fractional part dropped: for a float of value
    [n / d], the integer towards zero from it, less than one away. *)
Definition truncated (x : num) (z : Z) : Prop :=
  match x with
  | NumInt n => z = n
  | NumFloat (S754_zero _) => z = 0
  | NumFloat (S754_finite s m e) =>
      let (n, d) := fraction s m e in
      Z.abs z * d <= Z.abs n < (Z.abs z + 1) * d /\ 0 <= z * n
  | NumFloat _ => False
  end.

(** The pair of the first two coordinates of [p], each truncated. *)
Definition truncated_point (p : list num) (pt : pyval) : Prop :=
  exists p0 p1 x y,
    nth_error p 0 = Some p0 /\ nth_error p 1 = Some p1 /\
    truncated p0 x /\ truncated p1 y /\ pt = PList [PInt x; PInt y].

(** [item] is what the service answers for the image [img]: the item of
    the detections the model returns for the decoded bytes. *)
Definition answers (P : platform) (img item : pyval) : Prop :=
  exists content dets,
    b64decode img = Ok content /\ reader P content = Ok dets /\
    result_item dets = Ok item.

(** ** Well-formed base64 *)

(** Modelled on RFC 4648, section 4: the text is made of groups of four
    characters of the alphabet, the last of which may end in one or two
    pad characters. *)
Definition in_alphabet (c : Z) : bool := table_a2b_base64 c <? 64.

Fixpoint well_formed_quads (data : list Z) : bool :=
  match data with
  | [] => true
  | a :: b :: c :: d :: rest =>
      in_alphabet a && in_alphabet b &&
      match rest with
      | [] =>
          (in_alphabet c && (in_alphabet d || (d =? BASE64_PAD)))
          || ((c =? BASE64_PAD) && (d =? BASE64_PAD))
      | _ => in_alphabet c && in_alphabet d && well_formed_quads rest
      end
  | _ => false
  end.

Definition well_formed_base64 (s : string) : bool :=
  well_formed_quads (map byte_of_ascii (list_ascii_of_string s)).

(** Characters the decoder passes over: ASCII, not the pad, not in the
    alphabet. *)
Definition skipped (c : ascii) : bool :=
  (byte_of_ascii c <? 128) && negb (byte_of_ascii c =? BASE64_PAD)
  && (64 <=? table_a2b_base64 (byte_of_ascii c)).

Definition same_decoding (a b : pyval) : Prop := b64decode a = b64decode b.

(** ** Sample requests *)

(** The item of the one detection of [png_reader]. *)
Definition sample_item : pyval :=
  PDict [("dt_polys",
          PList [PList [PList [PInt 10; PInt 12]; PList [PInt 102; PInt 12];
                        PList [PInt 102; PInt 30]; PList [PInt 10; PInt (-30)]]]);
         ("rec_texts", PList [PStr "Lemon"]);
         ("rec_scores", PList [PFloat (S754_finite false 7 (-3))])].

(** The second image lacks its padding; the first has been processed. *)
Definition unpadded : list (string * pyval) :=
  [("images", PList [PStr png_b64; PStr "aGk"])].

Definition incorrect_padding : exn := Exn "binascii.Error" "Incorrect padding".

(** ** Further notions *)

(** The numbers [int] accepts: every integer and every finite float. *)
Definition convertible (x : num) : bool :=
  match x with
  | NumFloat S754_nan | NumFloat (S754_infinity _) => false
  | _ => true
  end.

(** A point with at least two coordinates, the first two convertible. *)
Definition good_point (p : list num) : bool :=
  match p with
  | x :: y :: _ => convertible x && convertible y
  | _ => false
  end.

(** The exceptions of the reshaping. *)
Definition reshape_errors : list exn :=
  [Exn "IndexError" "list index out of range";
   Exn "ValueError" "cannot convert float NaN to integer";
   Exn "OverflowError" "cannot convert float infinity to integer"].

Definition is_dict (v : pyval) : bool :=
  match v with PDict _ => true | _ => false end.

Definition is_str (v : pyval) : bool :=
  match v with PStr _ => true | _ => false end.

(** The values a [for] loop can run over. *)
Definition iterable (v : pyval) : bool :=
  match v with PList _ | PStr _ | PDict _ => true | _ => false end.

(** What the decoder says of a single character of the alphabet. *)
Definition lone_character : exn :=
  Exn "binascii.Error"
    "Invalid base64-encoded string: number of data characters (1) cannot be 1 more than a multiple of 4".

(** A request whose "images" is the list [imgs]. *)
Definition images_request (imgs : list pyval) : request :=
  Request (Ok (PDict [("images", PList imgs)])).

(** Further sample inputs. *)
Definition two_png : list (string * pyval) :=
  [("images", PList [PStr png_b64; PStr png_b64])].

Definition png_then_number : list (string * pyval) :=
  [("images", PList [PStr png_b64; PInt 5])].

Definition unpadded_then_png : list (string * pyval) :=
  [("images", PList [PStr png_b64; PStr "aGk"; PStr png_b64])].

Definition nan_detection : detection :=
  Detection [[NumFloat S754_nan; NumInt 0]] "?" (S754_zero false).

Definition silence : exn := Exn "AssertionError" "".

(** ** What the response to an image must be *)

(** [item] is the reshaped answer [ocr_result] of the model: under
    "dt_polys" one region per detection, each the list of its points with
    their first two coordinates truncated; under "rec_texts" the texts and
    under "rec_scores" the confidences, in the order of the detections. *)
Definition reshaped (ocr_result : list detection) (item : pyval) : Prop :=
  exists dt_polys,
    item = PDict [("dt_polys", PList dt_polys);
                  ("rec_texts", PList (map (fun d => PStr (text d)) ocr_result));
                  ("rec_scores",
                   PList (map (fun d => PFloat (confidence d)) ocr_result))]
    /\ Forall2 (fun d quad =>
                  exists points,
                    quad = PList points /\
                    Forall2 truncated_point (bbox d) points)
               ocr_result dt_polys.

(** ** The causes of an exception *)

Definition index_error : exn := Exn "IndexError" "list index out of range".

(** The coordinate [i] of the point [p] is missing or has no integer. *)
Definition coordinate_failure (p : list num) (i : nat) (e : exn) : Prop :=
  match nth_error p i with
  | None => e = index_error
  | Some x => int x = Raise e
  end.

(** The first of the two leading coordinates of [p] that fails. *)
Definition point_failure (p : list num) (e : exn) : Prop :=
  coordinate_failure p 0 e
  \/ (exists x, nth_error p 0 = Some x /\ convertible x = true /\
                coordinate_failure p 1 e).

(** The first point of a region that fails. *)
Definition bbox_failure (bb : list (list num)) (e : exn) : Prop :=
  exists good p rest,
    bb = (good ++ p :: rest)%list /\
    Forall (fun p => good_point p = true) good /\ point_failure p e.

(** The first detection of an answer that fails. *)
Definition reshape_failure (ocr_result : list detection) (e : exn) : Prop :=
  exists good d rest,
    ocr_result = (good ++ d :: rest)%list /\
    Forall (fun d => Forall (fun p => good_point p = true) (bbox d)) good /\
    bbox_failure (bbox d) e.

(** With the files [fs], the entry [img] goes through: it decodes, its
    file is created and written, the model answers, and every point of
    the answer has its two coordinates. *)
Definition processed (P : platform) (fs : gmap string (list Z)) (img : pyval)
    : Prop :=
  exists content ocr_result,
    b64decode img = Ok content /\
    open_fault P fs = None /\
    write_fault P (<[Tempfile.mkstemp fs ".png" := []]> fs) content = None /\
    reader P content = Ok ocr_result /\
    Forall (fun d => Forall (fun p => good_point p = true) (bbox d)) ocr_result.

(** With the files [fs], the entry [img] fails with [e]: in the decoder,
    when its file is created, when it is written, in the model, or when
    the answer of the model is reshaped. *)
Inductive image_failure (P : platform) (fs : gmap string (list Z))
    (img : pyval) (e : exn) : Prop :=
| decode_failure :
    b64decode img = Raise e -> image_failure P fs img e
| create_failure (content : list Z) :
    b64decode img = Ok content ->
    open_fault P fs = Some e -> image_failure P fs img e
| write_failure (content : list Z) (n : nat) :
    b64decode img = Ok content ->
    open_fault P fs = None ->
    write_fault P (<[Tempfile.mkstemp fs ".png" := []]> fs) content = Some (e, n) ->
    image_failure P fs img e
| model_failure (content : list Z) :
    b64decode img = Ok content ->
    open_fault P fs = None ->
    write_fault P (<[Tempfile.mkstemp fs ".png" := []]> fs) content = None ->
    reader P content = Raise e -> image_failure P fs img e
| answer_failure (content : list Z) (ocr_result : list detection) :
    b64decode img = Ok content ->
    open_fault P fs = None ->
    write_fault P (<[Tempfile.mkstemp fs ".png" := []]> fs) content = None ->
    reader P content = Ok ocr_result ->
    reshape_failure ocr_result e -> image_failure P fs img e.

(** The request [req], in the world [w], meets the exception [e]: its body
    is not JSON; its body has no [get]; its "images" cannot be iterated;
    or one of its images fails, those before it having gone through. *)
Inductive request_failure (P : platform) (req : request) (w : world) (e : exn)
    : Prop :=
| body_failure :
    json req = Raise e -> request_failure P req w e
| get_failure (data : pyval) :
    json req = Ok data ->
    get data "images" (PList []) = Raise e -> request_failure P req w e
| iter_failure (data images : pyval) :
    json req = Ok data ->
    get data "images" (PList []) = Ok images ->
    truthy images = true ->
    iter images = Raise e -> request_failure P req w e
| loop_failure (data images : pyval) (imgs1 imgs2 : list pyval) (img : pyval) :
    json req = Ok data ->
    get data "images" (PList []) = Ok images ->
    truthy images = true ->
    iter images = Ok (imgs1 ++ img :: imgs2)%list ->
    Forall (processed P (files w)) imgs1 ->
    image_failure P (files w) img e -> request_failure P req w e.

(** ** A model that tells its images apart *)

(** In a file that starts with the PNG signature, this model reads one
    line of text, placed and worded after the byte that follows the
    signature; it rejects every other file. *)
Definition page_reader (content : list Z) : result (list detection) :=
  if bool_decide (take 8 content = png_signature) then
    let n := nth 8 content 0 in
    Ok [Detection [[NumInt n; NumInt 0];
                   [NumFloat (S754_finite false 21 (-1)); NumInt 0];
                   [NumFloat (S754_finite false 21 (-1)); NumInt n];
                   [NumInt n; NumInt n]]
                  (if n =? 1 then "first page" else "another page")
                  (S754_finite false 3 (-2))]
  else Raise (Exn "OSError" "cannot identify image file").

Definition page_platform : platform :=
  Platform page_reader (fun _ => None) (fun _ _ => None).

(** The signature followed by the byte 1, and by the byte 2. *)
Definition page1_b64 : string := "iVBORw0KGgoB".

Definition page2_b64 : string := "iVBORw0KGgoC".

Definition two_pages : list (string * pyval) :=
  [("images", PList (map PStr [page1_b64; page2_b64]))].

Definition page1_item : pyval :=
  PDict [("dt_polys",
          PList [PList [PList [PInt 1; PInt 0]; PList [PInt 10; PInt 0];
                        PList [PInt 10; PInt 1]; PList [PInt 1; PInt 1]]]);
         ("rec_texts", PList [PStr "first page"]);
         ("rec_scores", PList [PFloat (S754_finite false 3 (-2))])].

Definition page2_item : pyval :=
  PDict [("dt_polys",
          PList [PList [PList [PInt 2; PInt 0]; PList [PInt 10; PInt 0];
                        PList [PInt 10; PInt 2]; PList [PInt 2; PInt 2]]]);
         ("rec_texts", PList [PStr "another page"]);
         ("rec_scores", PList [PFloat (S754_finite false 3 (-2))])].

Definition two_pages_served : world :=
  World ∅ ["/tmp/tmp0.png"; "/tmp/tmp0.png"].

(** An image the model of [sound_platform] rejects, after one it reads. *)
Definition png_then_blank : list (string * pyval) :=
  [("images", PList [PStr png_b64; PStr "AAAA"])].

Definition unreadable : exn := Exn "OSError" "cannot identify image file".

(** * Properties *)

(** ** The decoder on small inputs *)

Example b64decode_hi : b64decode (PStr "aGk=") = Ok [104; 105].
Proof. reflexivity. Qed.

Example b64decode_stray : b64decode (PStr "a!Gk=") = Ok [104; 105].
Proof. reflexivity. Qed.

Example b64decode_after_pad :
  b64decode (PStr "aGk=a") = Ok [104; 105].
Proof. reflexivity. Qed.

Example b64decode_padding :
  b64decode (PStr "aGk") = Raise (Exn "binascii.Error" "Incorrect padding").
Proof. reflexivity. Qed.

Example b64decode_count :
  b64decode (PStr "aGVsbG8hx")
  = Raise (Exn "binascii.Error"
      "Invalid base64-encoded string: number of data characters (9) cannot be 1 more than a multiple of 4").
Proof. vm_compute. reflexivity. Qed.


(** ** Temporary file names *)

Module TempfileFacts.
Import Tempfile.

Lemma length_append (s t : string) :
  String.length (s +:+ t) = (String.length s + String.length t)%nat.
Proof. induction s as [|a s IH]; simpl; [reflexivity | now rewrite IH]. Qed.

Lemma append_cancel_r (t s1 s2 : string) : s1 +:+ t = s2 +:+ t -> s1 = s2.
Proof.
  revert s2. induction s1 as [|a s1 IH]; intros [|b s2] H; simpl in H.
  - reflexivity.
  - apply (f_equal String.length) in H.
    rewrite !length_append in H. simpl in H. lia.
  - apply (f_equal String.length) in H.
    rewrite !length_append in H. simpl in H. lia.
  - injection H as -> H. f_equal. now apply IH.
Qed.

Lemma candidate_inj (suffix : string) : Inj (=) (=) (candidate suffix).
Proof.
  intros i j H. unfold candidate in H.
  apply String.app_inj, append_cancel_r in H.
  now apply (inj pretty) in H.
Qed.

(** Not more candidates name a file than there are files. *)
Lemma candidates_bounded (fs : gmap string (list Z)) (suffix : string) (n : nat) :
  (forall i, (i < n)%nat -> is_Some (fs !! candidate suffix i)) ->
  (n <= size fs)%nat.
Proof.
  intros Htaken.
  pose proof (candidate_inj suffix) as Hinj.
  assert (candidate suffix <$> seq 0 n ⊆+ elements (dom fs)) as Hsub.
  { apply NoDup_submseteq.
    - apply NoDup_fmap_2; [assumption | apply NoDup_seq].
    - intros x (i & -> & Hi)%list_elem_of_fmap.
      apply elem_of_seq in Hi. apply elem_of_elements, elem_of_dom.
      apply Htaken. lia. }
  apply submseteq_length in Hsub.
  rewrite length_fmap, length_seq in Hsub.
  rewrite <- size_dom. exact Hsub.
Qed.

Lemma first_free_fresh (fs : gmap string (list Z)) (suffix : string) (fuel n : nat) :
  (forall i, (i < n)%nat -> is_Some (fs !! candidate suffix i)) ->
  (n + fuel = size fs)%nat ->
  fs !! first_free fs suffix fuel n = None.
Proof.
  revert n. induction fuel as [|fuel IH]; intros n Htaken Hsize; simpl.
  - destruct (fs !! candidate suffix n) as [c|] eqn:Hn; [|exact Hn].
    exfalso.
    assert (S n <= size fs)%nat; [|lia].
    apply (candidates_bounded fs suffix). intros i Hi.
    destruct (decide (i = n)) as [->|]; [rewrite Hn; eauto | apply Htaken; lia].
  - destruct (fs !! candidate suffix n) as [c|] eqn:Hn; [|exact Hn].
    apply IH; [|lia]. intros i Hi.
    destruct (decide (i = n)) as [->|]; [rewrite Hn; eauto | apply Htaken; lia].
Qed.

(** The name of a new temporary file is the name of no file. *)
Lemma mkstemp_fresh (fs : gmap string (list Z)) (suffix : string) :
  fs !! mkstemp fs suffix = None.
Proof.
  unfold mkstemp. apply first_free_fresh; [|lia]. intros i Hi. lia.
Qed.

End TempfileFacts.

(** ** The reshaping of the model's answer *)

Ltac inv_result :=
  repeat match goal with
  | H : Ok _ = Ok _ |- _ => injection H as H; try subst
  | H : Raise _ = Ok _ |- _ => discriminate H
  | H : Ok _ = Raise _ |- _ => discriminate H
  | H : Raise _ = Raise _ |- _ => injection H as H; try subst
  | H : (_, _) = (_, _) |- _ => injection H as ? ?; try subst
  | H : rbind ?r _ = _ |- _ =>
      let E := fresh "E" in destruct r eqn:E; simpl in H
  end.

Lemma getitem_Ok {A} (p : list A) (i : nat) (x : A) :
  getitem p i = Ok x -> nth_error p i = Some x.
Proof.
  unfold getitem. destruct (nth_error p i); intros H; inv_result; reflexivity.
Qed.

Lemma bbox_list_Ok (bb : list (list num)) (bl : list pyval) :
  bbox_list bb = Ok bl -> Forall2 point_of bb bl.
Proof.
  revert bl. induction bb as [|p bb IH]; intros bl H; simpl in H.
  - inv_result. constructor.
  - inv_result. constructor; [|now apply IH].
    repeat match goal with
    | H : getitem _ _ = Ok _ |- _ => apply getitem_Ok in H
    end.
    unfold point_of. eauto 10.
Qed.

Lemma for_items_Ok (dets : list detection) :
  forall a b c a' b' c',
    for_items dets a b c = Ok (a', b', c') ->
    exists dt,
      Forall2 quad_of dets dt /\ a' = (a ++ dt)%list /\
      b' = (b ++ map (fun d => PStr (text d)) dets)%list /\
      c' = (c ++ map (fun d => PFloat (confidence d)) dets)%list.
Proof.
  induction dets as [|d dets IH]; intros a b c a' b' c' H; simpl in H.
  - inv_result. exists []. rewrite !app_nil_r. repeat split. constructor.
  - inv_result. apply IH in H as (dt & Hdt & -> & -> & ->).
    exists (PList a0 :: dt). rewrite <- !app_assoc. repeat split.
    constructor; [|assumption].
    exists a0. split; [reflexivity|]. now apply bbox_list_Ok.
Qed.

Lemma result_item_Ok (dets : list detection) (item : pyval) :
  result_item dets = Ok item -> item_of dets item.
Proof.
  unfold result_item. intros H. inv_result.
  destruct a as [[a b] c]. inv_result.
  apply for_items_Ok in E as (dt & Hdt & -> & -> & ->).
  exists dt. split; [reflexivity | assumption].
Qed.

(** ** One image *)

Section Image.

Variable P : platform.

(** What one turn of the loop does, case by case: the decoding fails; the
    file cannot be created; the file is created and the write fails, and
    then the file stays; or the model is called on the written file and
    the file is removed, whatever the model answers. *)
Lemma image_item_eq (img : pyval) (w : world) :
  image_item P img w =
  match b64decode img with
  | Raise e => (Raise e, w)
  | Ok content =>
      match open_fault P (files w) with
      | Some e => (Raise e, w)
      | None =>
          let name := Tempfile.mkstemp (files w) ".png" in
          match write_fault P (<[name := []]> (files w)) content with
          | Some (e, n) =>
              (Raise e,
               World (<[name := take n content]> (files w)) (readtext_calls w))
          | None =>
              (rbind (reader P content) result_item,
               World (files w) (readtext_calls w ++ [name]))
          end
      end
  end.
Proof.
  unfold image_item, bind, lift, NamedTemporaryFile, write, ret.
  destruct (b64decode img) as [content|e]; [|reflexivity].
  destruct (open_fault P (files w)) as [e|]; [reflexivity|].
  cbn [files readtext_calls].
  pose proof (TempfileFacts.mkstemp_fresh (files w) ".png") as Hfresh.
  set (name := Tempfile.mkstemp (files w) ".png") in *.
  destruct (write_fault P (<[name := []]> (files w)) content) as [[e n]|].
  - now rewrite insert_insert_eq.
  - unfold try_finally, readtext, os_remove. cbn [files readtext_calls].
    rewrite insert_insert_eq, lookup_insert_eq. cbn [files readtext_calls].
    rewrite lookup_insert_eq. cbn [files readtext_calls].
    rewrite delete_insert_eq, delete_id by exact Hfresh.
    destruct (reader P content) as [dets|e]; reflexivity.
Qed.

(** Once the file is written, the model is called on it and the file is
    removed, whether the model returns or raises. *)
Lemma model_call_cleanup (img : pyval) (content : list Z) (w : world) :
  b64decode img = Ok content ->
  open_fault P (files w) = None ->
  write_fault P (<[Tempfile.mkstemp (files w) ".png" := []]> (files w)) content = None ->
  fst (image_item P img w) = rbind (reader P content) result_item /\
  files (snd (image_item P img w)) = files w /\
  readtext_calls (snd (image_item P img w))
  = (readtext_calls w ++ [Tempfile.mkstemp (files w) ".png"])%list.
Proof.
  intros Hdec Hopen Hwrite. rewrite image_item_eq, Hdec, Hopen. cbv zeta.
  rewrite Hwrite. repeat split.
Qed.

Lemma image_item_Ok (img item : pyval) (w w' : world) :
  image_item P img w = (Ok item, w') -> answers P img item.
Proof.
  rewrite image_item_eq. unfold answers.
  destruct (b64decode img) as [content|e]; [|discriminate].
  destruct (open_fault P (files w)); [discriminate|]. cbv zeta.
  destruct (write_fault P _ content) as [[e n]|]; [discriminate|].
  destruct (reader P content) as [dets|e] eqn:Hr; [|discriminate].
  simpl. intros [= H _]. eauto.
Qed.

Lemma for_images_Ok (imgs : list pyval) :
  forall rs w out w',
    for_images P imgs rs w = (Ok out, w') ->
    exists items, out = (rs ++ items)%list /\ Forall2 (answers P) imgs items.
Proof.
  induction imgs as [|img imgs IH]; intros rs w out w' H; simpl in H.
  - injection H as <- _. exists []. rewrite app_nil_r. split; [reflexivity | constructor].
  - unfold bind in H. destruct (image_item P img w) as [[item|e] w1] eqn:Hitem;
      [|discriminate].
    apply IH in H as (items & -> & Hitems). apply image_item_Ok in Hitem.
    exists (item :: items). rewrite <- app_assoc. split; [reflexivity|].
    now constructor.
Qed.

(** Where no write fails, a turn of the loop leaves the files as they were. *)
Lemma image_item_files (img : pyval) (w : world) :
  (forall fs data, write_fault P fs data = None) ->
  files (snd (image_item P img w)) = files w.
Proof.
  intros Hw. rewrite image_item_eq.
  destruct (b64decode img) as [content|e]; [|reflexivity].
  destruct (open_fault P (files w)); [reflexivity|]. cbv zeta.
  now rewrite Hw.
Qed.

Lemma for_images_files (imgs : list pyval) :
  (forall fs data, write_fault P fs data = None) ->
  forall rs w, files (snd (for_images P imgs rs w)) = files w.
Proof.
  intros Hw. induction imgs as [|img imgs IH]; intros rs w; simpl; [reflexivity|].
  unfold bind. pose proof (image_item_files img w Hw) as Hfiles.
  destruct (image_item P img w) as [[item|e] w1]; simpl in Hfiles.
  - now rewrite IH.
  - exact Hfiles.
Qed.

End Image.

(** ** The handler [predict] *)

Section Predict.

Variable P : platform.

(** The three ways out of [predict]. *)
Lemma predict_cases (req : request) (w : world) :
  (exists e w', predict_try P req w = (Raise e, w') /\
                predict P req w = (Ok (failure e), w'))
  \/ (predict_try P req w = (Ok no_images, w) /\
      predict P req w = (Ok no_images, w) /\
      exists data images,
        json req = Ok data /\ get data "images" (PList []) = Ok images /\
        truthy images = false)
  \/ (exists data images imgs items w',
        predict_try P req w = (Ok (success items), w') /\
        predict P req w = (Ok (success items), w') /\
        json req = Ok data /\ get data "images" (PList []) = Ok images /\
        truthy images = true /\ iter images = Ok imgs /\
        for_images P imgs [] w = (Ok items, w')).
Proof.
  unfold predict, try_except, predict_try, bind, lift, ret.
  destruct (json req) as [data|e] eqn:Hj; [|left; eauto].
  destruct (get data "images" (PList [])) as [images|e] eqn:Hg; [|left; eauto].
  destruct (truthy images) eqn:Ht; simpl.
  - destruct (iter images) as [imgs|e] eqn:Hi; [|left; eauto].
    destruct (for_images P imgs [] w) as [[items|e] w'] eqn:Hloop; [|left; eauto].
    right; right. exists data, images, imgs, items, w'. auto 10.
  - right; left. eauto 10.
Qed.

(** A response with results is a success, and its items are the answers
    to the images of the request, in order. *)
Lemma predict_results (req : request) (w w' : world) (resp : response)
    (items : list pyval) :
  predict P req w = (Ok resp, w') ->
  field "results" (body resp) = Some (PList items) ->
  resp = success items /\
  exists data images imgs,
    json req = Ok data /\ get data "images" (PList []) = Ok images /\
    iter images = Ok imgs /\ Forall2 (answers P) imgs items.
Proof.
  intros Hrun Hres.
  destruct (predict_cases req w)
    as [(e & w1 & _ & H) | [(_ & H & _) | (data & images & imgs & its & w1 & _ & H & Hj & Hg & _ & Hi & Hloop)]];
    rewrite H in Hrun; injection Hrun as <- <-.
  - discriminate Hres.
  - discriminate Hres.
  - injection Hres as ->. split; [reflexivity|].
    apply for_images_Ok in Hloop as (items' & -> & Hall).
    exists data, images, imgs. auto.
Qed.

End Predict.

(** ** Recognition results *)

(** C2.  In every item of a response, the lists under "dt_polys",
    "rec_texts" and "rec_scores" have one length, the number of detections
    the model returned for the image of that item. *)
Theorem result_lists_equal_length (P : platform) (req : request) (w w' : world)
    (resp : response) (results : list pyval) :
  predict P req w = (Ok resp, w') ->
  field "results" (body resp) = Some (PList results) ->
  exists data images imgs,
    json req = Ok data /\ get data "images" (PList []) = Ok images /\
    iter images = Ok imgs /\
    Forall2 (fun img_b64 item =>
               exists content ocr_result dt_polys rec_texts rec_scores,
                 b64decode img_b64 = Ok content /\
                 reader P content = Ok ocr_result /\
                 item = PDict [("dt_polys", PList dt_polys);
                               ("rec_texts", PList rec_texts);
                               ("rec_scores", PList rec_scores)] /\
                 length dt_polys = length ocr_result /\
                 length rec_texts = length ocr_result /\
                 length rec_scores = length ocr_result)
            imgs results.
Proof.
  intros Hrun Hres.
  destruct (predict_results P req w w' resp results Hrun Hres)
    as (_ & data & images & imgs & Hj & Hg & Hi & Hall).
  exists data, images, imgs. repeat split; try assumption.
  eapply Forall2_impl; [exact Hall|].
  intros img item (content & dets & Hdec & Hread & Hitem).
  apply result_item_Ok in Hitem as (dt & -> & Hdt).
  exists content, dets, dt, (map (fun d => PStr (text d)) dets),
    (map (fun d => PFloat (confidence d)) dets).
  rewrite !length_map. apply Forall2_length in Hdt. auto 10.
Qed.

(** ** Types of the entries *)

Lemma quot_truncates (n d : Z) :
  0 < d -> Z.abs (n ÷ d) * d <= Z.abs n < (Z.abs (n ÷ d) + 1) * d /\ 0 <= (n ÷ d) * n.
Proof.
  intros Hd.
  pose proof (Z.quot_rem' n d) as Hqr.
  destruct (Z.le_ge_cases 0 n) as [Hn|Hn].
  - pose proof (Z.rem_bound_pos n d Hn Hd) as Hr.
    assert (0 <= n ÷ d) by (apply Z.quot_pos; lia).
    rewrite (Z.abs_eq (n ÷ d)), (Z.abs_eq n) by lia. nia.
  - pose proof (Z.rem_bound_pos (- n) d ltac:(lia) Hd) as Hr.
    rewrite Z.rem_opp_l in Hr by lia.
    assert (n ÷ d <= 0).
    { rewrite <- (Z.opp_involutive n), Z.quot_opp_l by lia.
      assert (0 <= - n ÷ d) by (apply Z.quot_pos; lia). lia. }
    rewrite (Z.abs_neq (n ÷ d)), (Z.abs_neq n) by lia. nia.
Qed.

Lemma int_truncated (x : num) (z : Z) : int x = Ok z -> truncated x z.
Proof.
  destruct x as [n|[s|s| |s m e]]; simpl; intros H; try discriminate.
  - now injection H.
  - now injection H.
  - injection H as <-. apply quot_truncates. apply Z.pow_pos_nonneg; lia.
Qed.

Lemma point_of_truncated (p : list num) (pt : pyval) :
  point_of p pt -> truncated_point p pt.
Proof.
  intros (p0 & p1 & x & y & H0 & H1 & Hx & Hy & ->).
  exists p0, p1, x, y. repeat split; auto using int_truncated.
Qed.

(** C6.  In every item of a response, every element of every list under
    "dt_polys" is a list of two integers, the truncated coordinates of the
    point the model returned at that place; every entry under "rec_texts"
    is a string and every entry under "rec_scores" is a float. *)
Theorem result_entries_typed (P : platform) (req : request) (w w' : world)
    (resp : response) (results : list pyval) :
  predict P req w = (Ok resp, w') ->
  field "results" (body resp) = Some (PList results) ->
  Forall (fun item =>
            exists ocr_result dt_polys rec_texts rec_scores,
              (exists content, reader P content = Ok ocr_result) /\
              item = PDict [("dt_polys", PList dt_polys);
                            ("rec_texts", PList rec_texts);
                            ("rec_scores", PList rec_scores)] /\
              Forall2 (fun d quad =>
                         exists bbox_list,
                           quad = PList bbox_list /\
                           Forall2 truncated_point (bbox d) bbox_list)
                      ocr_result dt_polys /\
              Forall (fun t => exists s, t = PStr s) rec_texts /\
              Forall (fun c => exists f, c = PFloat f) rec_scores)
         results.
Proof.
  intros Hrun Hres.
  destruct (predict_results P req w w' resp results Hrun Hres)
    as (_ & data & images & imgs & _ & _ & _ & Hall).
  apply Forall2_Forall_r with (P := answers P) (l := imgs); [exact Hall|].
  apply Forall_forall. intros img _ item (content & dets & _ & Hread & Hitem).
  apply result_item_Ok in Hitem as (dt & -> & Hdt).
  exists dets, dt, (map (fun d => PStr (text d)) dets),
    (map (fun d => PFloat (confidence d)) dets).
  split; [eauto|]. split; [reflexivity|]. split; [|split].
  - eapply Forall2_impl; [exact Hdt|].
    intros d q (bl & -> & Hbl). exists bl. split; [reflexivity|].
    eapply Forall2_impl; [exact Hbl | apply point_of_truncated].
  - apply List.Forall_map, List.Forall_forall. intros d _. eauto.
  - apply List.Forall_map, List.Forall_forall. intros d _. eauto.
Qed.

(** C9.  If every confidence the model returns lies between 0 and 1, so
    does every entry under "rec_scores" in every item of a response. *)
Theorem scores_in_unit_interval (P : platform) (req : request) (w w' : world)
    (resp : response) (results : list pyval) :
  (forall content ocr_result,
      reader P content = Ok ocr_result ->
      Forall (fun d => in_unit_interval (confidence d) = true) ocr_result) ->
  predict P req w = (Ok resp, w') ->
  field "results" (body resp) = Some (PList results) ->
  Forall (fun item =>
            exists rec_scores,
              field "rec_scores" item = Some (PList rec_scores) /\
              Forall (fun c => exists f, c = PFloat f /\ in_unit_interval f = true)
                     rec_scores)
         results.
Proof.
  intros Hmodel Hrun Hres.
  destruct (predict_results P req w w' resp results Hrun Hres)
    as (_ & data & images & imgs & _ & _ & _ & Hall).
  apply Forall2_Forall_r with (P := answers P) (l := imgs); [exact Hall|].
  apply Forall_forall. intros img _ item (content & dets & _ & Hread & Hitem).
  apply result_item_Ok in Hitem as (dt & -> & _).
  exists (map (fun d => PFloat (confidence d)) dets). split; [reflexivity|].
  apply List.Forall_map. specialize (Hmodel content dets Hread).
  eapply List.Forall_impl; [|exact Hmodel]. simpl. eauto.
Qed.

(** ** Requests without images *)

(** C3.  A body that is a dict without the key "images", or with the empty
    list under it, is answered with status 400 and the body
    [{"status": "error", "msg": "No images provided"}], the same in both
    cases; the world is left as it was, so the model is not called. *)
Theorem predict_no_images (P : platform) (d : list (string * pyval)) (w : world) :
  lookup_item "images" d = None \/ lookup_item "images" d = Some (PList []) ->
  predict P (Request (Ok (PDict d))) w
  = (Ok (Response (PDict [("status", PStr "error");
                          ("msg", PStr "No images provided")]) 400), w)
  /\ readtext_calls (snd (predict P (Request (Ok (PDict d))) w)) = readtext_calls w.
Proof.
  intros H.
  assert (predict P (Request (Ok (PDict d))) w = (Ok no_images, w)) as Hrun.
  { unfold predict, try_except, predict_try, bind, lift, ret. simpl.
    destruct H as [-> | ->]; reflexivity. }
  rewrite Hrun. split; reflexivity.
Qed.

(** C10.  The test on "images" is a truth test: null, false, 0, the empty
    string and the empty list are all false for it, and a dict body with
    any such value under "images" gets the answer of a request without
    images. *)
Theorem predict_falsy_images (P : platform) (d : list (string * pyval))
    (images : pyval) (w : world) :
  lookup_item "images" d = Some images ->
  truthy images = false ->
  Forall (fun v => truthy v = false)
         [PNone; PBool false; PInt 0; PStr ""; PList []]
  /\ predict P (Request (Ok (PDict d))) w
     = (Ok (Response (PDict [("status", PStr "error");
                             ("msg", PStr "No images provided")]) 400), w).
Proof.
  intros Hd Ht. split.
  - repeat constructor.
  - unfold predict, try_except, predict_try, bind, lift, ret. simpl.
    rewrite Hd, Ht. reflexivity.
Qed.

(** ** Exceptions *)

Section Failures.

Variable P : platform.

Lemma for_images_app (imgs1 imgs2 : list pyval) :
  forall rs w,
    for_images P (imgs1 ++ imgs2) rs w
    = bind (for_images P imgs1 rs) (for_images P imgs2) w.
Proof.
  induction imgs1 as [|img imgs1 IH]; intros rs w; simpl; [reflexivity|].
  unfold bind.
  destruct (image_item P img w) as [[item|e] w1]; [|reflexivity].
  rewrite IH. reflexivity.
Qed.

(** An exception in the turn of one image ends the request with that
    exception, whatever was collected for the images before it. *)
Lemma predict_try_raises_at (d : list (string * pyval))
    (imgs1 imgs2 : list pyval) (img : pyval) (rs : list pyval) (e : exn)
    (w w1 w2 : world) :
  lookup_item "images" d = Some (PList (imgs1 ++ img :: imgs2)) ->
  for_images P imgs1 [] w = (Ok rs, w1) ->
  image_item P img w1 = (Raise e, w2) ->
  predict_try P (Request (Ok (PDict d))) w = (Raise e, w2).
Proof.
  intros Hd H1 Himg.
  unfold predict_try, bind, lift. simpl. rewrite Hd.
  replace (truthy (PList (imgs1 ++ img :: imgs2))) with true
    by (destruct imgs1; reflexivity).
  simpl. rewrite for_images_app.
  unfold bind. rewrite H1. simpl. unfold bind. rewrite Himg.
  reflexivity.
Qed.

(** The body that cannot be parsed. *)
Lemma predict_try_bad_body (e : exn) (w : world) :
  predict_try P (Request (Raise e)) w = (Raise e, w).
Proof. reflexivity. Qed.

(** Every message of the decoder has text. *)
Lemma a2b_loop_message (data : list Z) :
  forall quad_pos leftchar pads bin_data e,
    a2b_loop data quad_pos leftchar pads bin_data = Raise e -> exc_str e <> "".
Proof.
  induction data as [|c data IH]; intros q l p out e H; simpl in H.
  - destruct q as [|[|q]]; [discriminate | |]; injection H as <-; simpl;
      intros Heq; apply (f_equal String.length) in Heq;
      rewrite ?TempfileFacts.length_append in Heq; simpl in Heq; lia.
  - repeat match type of H with
           | context [if ?c then _ else _] => destruct c
           | context [match ?n with O => _ | S _ => _ end] => destruct n
           end;
      try discriminate; eauto.
Qed.

Lemma b64decode_message (v : pyval) (e : exn) :
  b64decode v = Raise e -> exc_str e <> "".
Proof.
  destruct v; simpl; intros H;
    try (injection H as <-; simpl; intros Heq;
         apply (f_equal String.length) in Heq;
         rewrite ?TempfileFacts.length_append in Heq; simpl in Heq; lia).
  destruct (is_ascii s).
  - now apply a2b_loop_message in H.
  - injection H as <-. discriminate.
Qed.

(** Where no write fails, a request leaves the files as they were. *)
Lemma predict_files (req : request) (w : world) :
  (forall fs data, write_fault P fs data = None) ->
  files (snd (predict P req w)) = files w.
Proof.
  intros Hw. unfold predict, try_except, predict_try, bind, lift, ret.
  destruct (json req) as [data|e]; [|reflexivity].
  destruct (get data "images" (PList [])) as [images|e]; [|reflexivity].
  destruct (truthy images); simpl; [|reflexivity].
  destruct (iter images) as [imgs|e]; [|reflexivity].
  pose proof (for_images_files P imgs Hw [] w) as Hloop.
  destruct (for_images P imgs [] w) as [[items|e] w']; exact Hloop.
Qed.

End Failures.

(** ** Characters the decoder skips *)

Lemma a2b_loop_skip (c : Z) (l1 l2 : list Z) :
  (c =? BASE64_PAD) = false -> (64 <=? table_a2b_base64 c) = true ->
  forall quad_pos leftchar pads bin_data,
    a2b_loop (l1 ++ c :: l2) quad_pos leftchar pads bin_data
    = a2b_loop (l1 ++ l2) quad_pos leftchar pads bin_data.
Proof.
  intros Hpad Hskip. induction l1 as [|x l1 IH]; intros q lc p out; simpl.
  - now rewrite Hpad, Hskip.
  - repeat match goal with
           | |- context [if ?b then _ else _] => destruct b
           | |- context [match ?n with O => _ | S _ => _ end] => destruct n
           end; auto.
Qed.

Lemma list_ascii_of_append (s t : string) :
  list_ascii_of_string (s +:+ t)
  = (list_ascii_of_string s ++ list_ascii_of_string t)%list.
Proof. induction s as [|a s IH]; simpl; [reflexivity | now rewrite IH]. Qed.

(** A skipped character anywhere in an entry does not change what the
    entry decodes to. *)
Lemma b64decode_skip (c : ascii) (s t : string) :
  skipped c = true ->
  same_decoding (PStr (s +:+ String c t)) (PStr (s +:+ t)).
Proof.
  unfold skipped, same_decoding, b64decode, is_ascii, a2b_base64.
  intros [[Hascii Hpad%negb_true_iff]%andb_prop Hskip]%andb_prop.
  rewrite !list_ascii_of_append. simpl list_ascii_of_string.
  rewrite !forallb_app. simpl forallb. rewrite Hascii. simpl.
  destruct (forallb _ (list_ascii_of_string s) && forallb _ (list_ascii_of_string t));
    [|reflexivity].
  rewrite !map_app. simpl map. now apply a2b_loop_skip.
Qed.

Section Decoding.

Variable P : platform.

Lemma image_item_same_decoding (a b : pyval) (w : world) :
  same_decoding a b -> image_item P a w = image_item P b w.
Proof. intros H. rewrite !image_item_eq. now rewrite H. Qed.

Lemma for_images_same_decoding (imgs imgs' : list pyval) :
  Forall2 same_decoding imgs imgs' ->
  forall rs w, for_images P imgs rs w = for_images P imgs' rs w.
Proof.
  induction 1 as [|a b imgs imgs' Hab _ IH]; intros rs w; simpl; [reflexivity|].
  unfold bind. rewrite (image_item_same_decoding a b w Hab).
  destruct (image_item P b w) as [[item|e] w1]; [apply IH | reflexivity].
Qed.

(** Two requests whose images decode alike get the same response. *)
Lemma predict_same_decoding (d d' : list (string * pyval))
    (imgs imgs' : list pyval) (w : world) :
  lookup_item "images" d = Some (PList imgs) ->
  lookup_item "images" d' = Some (PList imgs') ->
  Forall2 same_decoding imgs imgs' ->
  predict P (Request (Ok (PDict d))) w = predict P (Request (Ok (PDict d'))) w.
Proof.
  intros Hd Hd' Hall.
  unfold predict, try_except, predict_try, bind, lift, ret. simpl.
  rewrite Hd, Hd'.
  replace (truthy (PList imgs')) with (truthy (PList imgs))
    by (destruct Hall; reflexivity).
  destruct (truthy (PList imgs)); simpl; [|reflexivity].
  now rewrite (for_images_same_decoding imgs imgs' Hall).
Qed.

End Decoding.

(** ** The status of a response *)

Example png_b64_well_formed : well_formed_base64 png_b64 = true.
Proof. reflexivity. Qed.

Example png_b64_decoded : b64decode (PStr png_b64) = Ok png_signature.
Proof. reflexivity. Qed.

(** C7, as stated, fails: an entry with a character outside the alphabet
    is not well-formed base64, yet the decoder skips the character, the
    model reads the decoded image, and the response is the success
    response with status "000". *)
Lemma stray_character_accepted :
  well_formed_base64 "iVBO!Rw0KGgo=" = false /\
  predict sound_platform
    (Request (Ok (PDict [("images", PList [PStr "iVBO!Rw0KGgo="])]))) empty_world
  = (Ok (Response (PDict [("status", PStr "000");
                          ("results", PList [sample_item])]) 200),
     World ∅ ["/tmp/tmp0.png"]).
Proof. split; vm_compute; reflexivity. Qed.

(** The message of a response is that of the first exception: when the
    model has failed on an earlier image, an entry the decoder would reject
    is never decoded. *)
Lemma earlier_failure_decides_message :
  b64decode (PStr "aGk") = Raise incorrect_padding /\
  predict mute_platform (Request (Ok (PDict unpadded))) empty_world
  = (Ok (Response (PDict [("status", PStr "error"); ("msg", PStr "")]) 500),
     served_world).
Proof. split; vm_compute; reflexivity. Qed.

(** C7, amended.  The status of a response is "000" when the body of the
    handler ended with the success response and "error" otherwise.  When
    the decoder rejects an entry of "images", the response has status 500
    and "error"; its message is the decoder's, which is not empty, when
    the entries before it were processed without an exception. *)
Theorem predict_status_sentinel (P : platform) (d : list (string * pyval))
    (imgs1 imgs2 : list pyval) (img : pyval) (e : exn) (w : world) :
  lookup_item "images" d = Some (PList (imgs1 ++ img :: imgs2)) ->
  b64decode img = Raise e ->
  (forall req0 w0, exists resp0 w0',
      predict P req0 w0 = (Ok resp0, w0') /\
      ((status_code resp0 = 200 /\
        field "status" (body resp0) = Some (PStr "000") /\
        predict_try P req0 w0 = (Ok resp0, w0'))
       \/ (status_code resp0 <> 200 /\
           field "status" (body resp0) = Some (PStr "error"))))
  /\ exists resp w' msg,
       predict P (Request (Ok (PDict d))) w = (Ok resp, w') /\
       status_code resp = 500 /\
       field "status" (body resp) = Some (PStr "error") /\
       field "msg" (body resp) = Some (PStr msg) /\
       ((exists rs w1, for_images P imgs1 [] w = (Ok rs, w1)) ->
        msg = exc_str e /\ msg <> "").
Proof.
  intros Hd Hdec. split.
  - intros req0 w0.
    destruct (predict_cases P req0 w0)
      as [(e0 & w1 & _ & H) | [(_ & H & _) | (data & images & imgs & its & w1 & Ht & H & _)]];
      rewrite H.
    + exists (failure e0), w1. split; [reflexivity|]. right. split; [discriminate | reflexivity].
    + exists no_images, w0. split; [reflexivity|]. right. split; [discriminate | reflexivity].
    + exists (success its), w1. split; [reflexivity|]. left. auto.
  - destruct (for_images P imgs1 [] w) as [[rs|e1] w1] eqn:H1.
    + assert (image_item P img w1 = (Raise e, w1)) as Himg
        by (rewrite image_item_eq, Hdec; reflexivity).
      pose proof (predict_try_raises_at P d imgs1 imgs2 img rs e w w1 w1 Hd H1 Himg) as Htry.
      exists (failure e), w1, (exc_str e).
      unfold predict, try_except. rewrite Htry.
      do 4 (split; [reflexivity|]). intros _. split; [reflexivity|].
      now apply b64decode_message with (v := img).
    + assert (predict_try P (Request (Ok (PDict d))) w = (Raise e1, w1)) as Htry.
      { unfold predict_try, bind, lift. simpl. rewrite Hd.
        replace (truthy (PList (imgs1 ++ img :: imgs2))) with true
          by (destruct imgs1; reflexivity).
        simpl. rewrite for_images_app. unfold bind. rewrite H1. reflexivity. }
      exists (failure e1), w1, (exc_str e1).
      unfold predict, try_except. rewrite Htry.
      do 4 (split; [reflexivity|]). intros (rs & w2 & [=]).
Qed.

(** ** The health check *)

(** C8.  [health] returns status 200 and the body
    [{"status": "ok", "service": "EasyOCR", "languages": ["ch_sim", "en"]}]
    in every world and leaves the world as it was; it takes nothing from
    the platform and does not raise. *)
Theorem health_response (w : world) :
  health w
  = (Ok (Response (PDict [("status", PStr "ok");
                          ("service", PStr "EasyOCR");
                          ("languages", PList [PStr "ch_sim"; PStr "en"])]) 200),
     w).
Proof. reflexivity. Qed.

(** ** Temporary files *)

(** C4 fails on the code when the write to the temporary file fails: the
    file has been created, the exception leaves the [with] block before the
    [try] whose [finally] removes the file, and the file is there after the
    request.  Here the volume is full and the request has one image. *)
Theorem temp_file_left_on_write_failure :
  let run := predict full_platform one_png_request empty_world in
  fst run = Ok (Response (PDict [("status", PStr "error");
                                 ("msg", PStr "[Errno 28] No space left on device")])
                         500)
  /\ files empty_world !! "/tmp/tmp0.png" = None
  /\ files (snd run) !! "/tmp/tmp0.png" = Some []
  /\ readtext_calls (snd run) = [].
Proof. vm_compute. repeat split. Qed.

(** ** The theorems at work on a request *)

(** [result_lists_equal_length] on the same request. *)
Lemma result_lists_equal_length_witness :
  exists data images imgs,
    json one_png_request = Ok data /\ get data "images" (PList []) = Ok images /\
    iter images = Ok imgs /\
    Forall2 (fun img_b64 item =>
               exists content ocr_result dt_polys rec_texts rec_scores,
                 b64decode img_b64 = Ok content /\
                 reader sound_platform content = Ok ocr_result /\
                 item = PDict [("dt_polys", PList dt_polys);
                               ("rec_texts", PList rec_texts);
                               ("rec_scores", PList rec_scores)] /\
                 length dt_polys = length ocr_result /\
                 length rec_texts = length ocr_result /\
                 length rec_scores = length ocr_result)
            imgs [sample_item].
Proof.
  apply (result_lists_equal_length sound_platform one_png_request
           empty_world served_world (success [sample_item]) [sample_item]).
  - vm_compute. reflexivity.
  - reflexivity.
Defined.

(** [result_entries_typed] on the same request. *)
Lemma result_entries_typed_witness :
  Forall (fun item =>
            exists ocr_result dt_polys rec_texts rec_scores,
              (exists content, reader sound_platform content = Ok ocr_result) /\
              item = PDict [("dt_polys", PList dt_polys);
                            ("rec_texts", PList rec_texts);
                            ("rec_scores", PList rec_scores)] /\
              Forall2 (fun d quad =>
                         exists bbox_list,
                           quad = PList bbox_list /\
                           Forall2 truncated_point (bbox d) bbox_list)
                      ocr_result dt_polys /\
              Forall (fun t => exists s, t = PStr s) rec_texts /\
              Forall (fun c => exists f, c = PFloat f) rec_scores)
         [sample_item].
Proof.
  apply (result_entries_typed sound_platform one_png_request
           empty_world served_world (success [sample_item]) [sample_item]).
  - vm_compute. reflexivity.
  - reflexivity.
Defined.

(** [scores_in_unit_interval] on the same request: the one confidence of
    [png_reader] is 7/8. *)
Lemma scores_in_unit_interval_witness :
  Forall (fun item =>
            exists rec_scores,
              field "rec_scores" item = Some (PList rec_scores) /\
              Forall (fun c => exists f, c = PFloat f /\ in_unit_interval f = true)
                     rec_scores)
         [sample_item].
Proof.
  apply (scores_in_unit_interval sound_platform one_png_request
           empty_world served_world (success [sample_item]) [sample_item]).
  - intros content ocr_result. simpl. unfold png_reader.
    destruct (bool_decide (take 8 content = png_signature)); intros H.
    + injection H as <-. repeat constructor.
    + discriminate H.
  - vm_compute. reflexivity.
  - reflexivity.
Defined.

(** [predict_no_images] on a body without the key. *)
Lemma predict_no_images_witness :
  predict sound_platform (Request (Ok (PDict [("mode", PStr "fast")]))) empty_world
  = (Ok (Response (PDict [("status", PStr "error");
                          ("msg", PStr "No images provided")]) 400), empty_world)
  /\ readtext_calls
       (snd (predict sound_platform (Request (Ok (PDict [("mode", PStr "fast")])))
               empty_world))
     = readtext_calls empty_world.
Proof.
  apply (predict_no_images sound_platform [("mode", PStr "fast")] empty_world).
  left. reflexivity.
Defined.

(** [predict_falsy_images] on a body with 0 under the key. *)
Lemma predict_falsy_images_witness :
  Forall (fun v => truthy v = false)
         [PNone; PBool false; PInt 0; PStr ""; PList []]
  /\ predict sound_platform (Request (Ok (PDict [("images", PInt 0)]))) empty_world
     = (Ok (Response (PDict [("status", PStr "error");
                             ("msg", PStr "No images provided")]) 400), empty_world).
Proof.
  apply (predict_falsy_images sound_platform [("images", PInt 0)] (PInt 0) empty_world).
  - reflexivity.
  - reflexivity.
Defined.

(** [predict_status_sentinel] on the same request. *)
Lemma predict_status_sentinel_witness :
  (forall req0 w0, exists resp0 w0',
      predict sound_platform req0 w0 = (Ok resp0, w0') /\
      ((status_code resp0 = 200 /\
        field "status" (body resp0) = Some (PStr "000") /\
        predict_try sound_platform req0 w0 = (Ok resp0, w0'))
       \/ (status_code resp0 <> 200 /\
           field "status" (body resp0) = Some (PStr "error"))))
  /\ exists resp w' msg,
       predict sound_platform (Request (Ok (PDict unpadded))) empty_world
       = (Ok resp, w') /\
       status_code resp = 500 /\
       field "status" (body resp) = Some (PStr "error") /\
       field "msg" (body resp) = Some (PStr msg) /\
       ((exists rs w1,
            for_images sound_platform [PStr png_b64] [] empty_world = (Ok rs, w1)) ->
        msg = exc_str incorrect_padding /\ msg <> "").
Proof.
  apply (predict_status_sentinel sound_platform unpadded
           [PStr png_b64] [] (PStr "aGk") incorrect_padding empty_world).
  - reflexivity.
  - reflexivity.
Defined.

(** * Further properties of the handlers *)

(** ** The world after a request *)

Section Effects.

Variable P : platform.

Lemma first_free_candidate (fs : gmap string (list Z)) (suffix : string)
    (fuel n : nat) :
  exists k, Tempfile.first_free fs suffix fuel n = Tempfile.candidate suffix k.
Proof.
  revert n. induction fuel as [|fuel IH]; intros n; simpl.
  - destruct (fs !! Tempfile.candidate suffix n); eauto.
  - destruct (fs !! Tempfile.candidate suffix n); eauto.
Qed.

Lemma append_assoc (s t u : string) : (s +:+ t) +:+ u = s +:+ (t +:+ u).
Proof.
  induction s as [|a s IH]; [reflexivity|].
  change (String a ((s +:+ t) +:+ u) = String a (s +:+ (t +:+ u))).
  now rewrite IH.
Qed.

(** The name of a temporary file ends with the suffix asked for. *)
Lemma mkstemp_suffix (fs : gmap string (list Z)) (suffix : string) :
  exists stem, Tempfile.mkstemp fs suffix = stem +:+ suffix.
Proof.
  unfold Tempfile.mkstemp.
  destruct (first_free_candidate fs suffix (size fs) 0) as [k ->].
  exists ("/tmp/tmp" +:+ pretty k). unfold Tempfile.candidate.
  now rewrite append_assoc.
Qed.

(** What a turn of the loop does to the world: nothing; or a call of the
    model on a new path, the files as before; or, when the write fails, a
    new file and no call. *)
Lemma image_item_world (img : pyval) (w : world) :
  let name := Tempfile.mkstemp (files w) ".png" in
  let run := image_item P img w in
  (snd run = w /\ exists e, fst run = Raise e)
  \/ (files (snd run) = files w /\
      readtext_calls (snd run) = (readtext_calls w ++ [name])%list)
  \/ (exists content e n,
        write_fault P (<[name := []]> (files w)) content = Some (e, n) /\
        fst run = Raise e /\
        files (snd run) = <[name := take n content]> (files w) /\
        readtext_calls (snd run) = readtext_calls w).
Proof.
  cbv zeta. rewrite image_item_eq.
  destruct (b64decode img) as [content|e]; [|left; eauto].
  destruct (open_fault P (files w)) as [e|]; [left; eauto|]. cbv zeta.
  destruct (write_fault P _ content) as [[e n]|] eqn:Hw.
  - right; right. exists content, e, n. auto.
  - right; left. auto.
Qed.

(** The outcome of a turn and the files after it depend on the files
    only, not on the calls made before. *)
Lemma image_item_files_only (img : pyval) (w v : world) :
  files w = files v ->
  fst (image_item P img w) = fst (image_item P img v) /\
  files (snd (image_item P img w)) = files (snd (image_item P img v)).
Proof.
  intros H. rewrite !image_item_eq, <- H.
  destruct (b64decode img) as [content|e]; [|auto].
  destruct (open_fault P (files w)) as [e|]; [auto|]. cbv zeta.
  destruct (write_fault P _ content) as [[e n]|]; auto.
Qed.

Lemma for_images_files_only (imgs : list pyval) :
  forall rs w v,
    files w = files v ->
    fst (for_images P imgs rs w) = fst (for_images P imgs rs v) /\
    files (snd (for_images P imgs rs w)) = files (snd (for_images P imgs rs v)).
Proof.
  induction imgs as [|img imgs IH]; intros rs w v H; simpl; [auto|].
  unfold bind. destruct (image_item_files_only img w v H) as [Hr Hf].
  destruct (image_item P img w) as [[item|e] w1],
           (image_item P img v) as [[item'|e'] v1]; simpl in Hr, Hf;
    try discriminate.
  - injection Hr as <-. now apply IH.
  - injection Hr as <-. auto.
Qed.

(** The list the loop starts from is only prepended to. *)
Lemma for_images_acc (imgs : list pyval) :
  forall rs w,
    for_images P imgs rs w
    = match for_images P imgs [] w with
      | (Ok items, w') => (Ok (rs ++ items)%list, w')
      | (Raise e, w') => (Raise e, w')
      end.
Proof.
  induction imgs as [|img imgs IH]; intros rs w; simpl.
  - unfold ret. now rewrite app_nil_r.
  - unfold bind. destruct (image_item P img w) as [[item|e] w1]; [|reflexivity].
    rewrite (IH (rs ++ [item])%list), (IH ([] ++ [item])%list).
    destruct (for_images P imgs [] w1) as [[items|e] w']; [|reflexivity].
    now rewrite <- app_assoc.
Qed.

(** The world after the loop. *)
Lemma for_images_world (imgs : list pyval) :
  forall rs w,
    let name := Tempfile.mkstemp (files w) ".png" in
    let run := for_images P imgs rs w in
    exists calls,
      readtext_calls (snd run) = (readtext_calls w ++ calls)%list /\
      (length calls <= length imgs)%nat /\
      Forall (fun path => path = name) calls /\
      ((exists items, fst run = Ok items) ->
       length calls = length imgs /\ files (snd run) = files w) /\
      (files (snd run) = files w
       \/ exists content e n,
            write_fault P (<[name := []]> (files w)) content = Some (e, n) /\
            fst run = Raise e /\
            files (snd run) = <[name := take n content]> (files w)).
Proof.
  induction imgs as [|img imgs IH]; intros rs w; cbv zeta; simpl.
  - exists []. rewrite app_nil_r. repeat split; auto.
  - unfold bind.
    destruct (image_item_world img w) as [[Hw [e He]] | [[Hf Hc] | (content & e & n & Hfault & He & Hf & Hc)]];
      destruct (image_item P img w) as [[item|e'] w1]; simpl in *;
      try discriminate.
    + subst w1. exists []. rewrite app_nil_r. split; [reflexivity|].
      split; [simpl; lia|]. split; [constructor|].
      split; [intros [items [=]] | left; reflexivity].
    + specialize (IH (rs ++ [item])%list w1). cbv zeta in IH.
      destruct IH as (calls & Hcalls & Hlen & Hall & Hok & Hfiles).
      rewrite Hf in *.
      exists (Tempfile.mkstemp (files w) ".png" :: calls).
      rewrite Hcalls, Hc, <- app_assoc. simpl.
      split; [reflexivity|]. split; [lia|]. split; [now constructor|].
      split; [|exact Hfiles].
      intros Hitems. destruct (Hok Hitems) as [-> ->]. auto.
    + exists [Tempfile.mkstemp (files w) ".png"]. rewrite Hc.
      split; [reflexivity|]. split; [simpl; lia|]. split; [repeat constructor|].
      split; [intros [items [=]] | left; exact Hf].
    + exists []. rewrite app_nil_r, Hc. split; [reflexivity|].
      split; [simpl; lia|]. split; [constructor|].
      split; [intros [items [=]]|].
      right. exists content, e, n. injection He as ->. auto.
Qed.

End Effects.

(** ** The handler on a list of images *)

Section Batches.

Variable P : platform.

(** With a list under "images" that is not empty, the response is that of
    the loop. *)
Lemma predict_list (d : list (string * pyval)) (imgs : list pyval) (w : world) :
  lookup_item "images" d = Some (PList imgs) ->
  imgs <> [] ->
  predict P (Request (Ok (PDict d))) w
  = match for_images P imgs [] w with
    | (Ok items, w') => (Ok (success items), w')
    | (Raise e, w') => (Ok (failure e), w')
    end.
Proof.
  intros Hd Hne. unfold predict, try_except, predict_try, bind, lift, ret. simpl.
  rewrite Hd. destruct imgs as [|img imgs]; [congruence|].
  cbn [truthy negb iter]. cbv beta iota.
  destruct (for_images P (img :: imgs) [] w) as [[items|e] w']; reflexivity.
Qed.

(** Every request either leaves the world alone and is not a success, or
    gets the response of the loop over the items of its "images". *)
Lemma predict_run (req : request) (w : world) :
  (snd (predict P req w) = w /\
   exists resp, fst (predict P req w) = Ok resp /\ status_code resp <> 200)
  \/ (exists imgs,
        predict P req w
        = match for_images P imgs [] w with
          | (Ok items, w') => (Ok (success items), w')
          | (Raise e, w') => (Ok (failure e), w')
          end).
Proof.
  unfold predict, try_except, predict_try, bind, lift, ret.
  destruct (json req) as [data|e]; [|left; simpl; split; [reflexivity|]; eexists; split; [reflexivity | discriminate]].
  destruct (get data "images" (PList [])) as [images|e]; [|left; simpl; split; [reflexivity|]; eexists; split; [reflexivity | discriminate]].
  destruct (truthy images); simpl.
  - destruct (iter images) as [imgs|e]; [|left; simpl; split; [reflexivity|]; eexists; split; [reflexivity | discriminate]].
    right. exists imgs.
    destruct (for_images P imgs [] w) as [[items|e] w']; reflexivity.
  - left. split; [reflexivity|]. eexists. split; [reflexivity | discriminate].
Qed.

End Batches.

(** ** Bodies and fields of the wrong type *)

(** X1.  A parsed body that is not an object (a list, a string, a number,
    true, false or null) has no [get]: the response has status 500, its
    message names the type of the body, and the world is left as it was. *)
Theorem predict_body_not_object (P : platform) (data : pyval) (w : world) :
  is_dict data = false ->
  predict P (Request (Ok data)) w
  = (Ok (Response (PDict [("status", PStr "error");
                          ("msg", PStr ("'" +:+ type_name data
                                        +:+ "' object has no attribute 'get'"))])
                  500), w).
Proof. destruct data; intros H; try discriminate H; reflexivity. Qed.

(** X2.  A value under "images" that is true for the test and cannot be
    iterated (true, a number other than zero) gives status 500 with the
    message of the failed loop; the world is left as it was. *)
Theorem predict_images_not_iterable (P : platform) (d : list (string * pyval))
    (images : pyval) (w : world) :
  lookup_item "images" d = Some images ->
  truthy images = true ->
  iterable images = false ->
  predict P (Request (Ok (PDict d))) w
  = (Ok (Response (PDict [("status", PStr "error");
                          ("msg", PStr ("'" +:+ type_name images
                                        +:+ "' object is not iterable"))])
                  500), w).
Proof.
  intros Hd Ht Hi.
  unfold predict, try_except, predict_try, bind, lift, ret. simpl.
  rewrite Hd, Ht. simpl.
  destruct images; try discriminate Hi; reflexivity.
Qed.

Lemma in_alphabet_ascii (c : Z) : in_alphabet c = true -> c < 128 /\ c <> BASE64_PAD.
Proof.
  unfold in_alphabet, table_a2b_base64, BASE64_PAD.
  repeat match goal with
         | |- context [if ?b then _ else _] => destruct b eqn:?
         end; lia.
Qed.

Lemma b64decode_lone_character (c : ascii) :
  in_alphabet (byte_of_ascii c) = true ->
  b64decode (PStr (String c EmptyString)) = Raise lone_character.
Proof.
  intros Hc. destruct (in_alphabet_ascii _ Hc) as [Hlt Hpad].
  unfold b64decode, is_ascii, a2b_base64. simpl.
  replace (byte_of_ascii c <? 128) with true by (symmetry; apply Z.ltb_lt; exact Hlt).
  simpl.
  replace (byte_of_ascii c =? BASE64_PAD) with false
    by (symmetry; apply Z.eqb_neq; exact Hpad).
  unfold in_alphabet in Hc.
  replace (64 <=? table_a2b_base64 (byte_of_ascii c)) with false
    by (symmetry; apply Z.leb_gt; apply Z.ltb_lt; exact Hc).
  reflexivity.
Qed.

(** X3.  When "images" is a string instead of a list, the loop runs over
    its characters: if the first is a character of the base64 alphabet, it
    is decoded alone and rejected; the response has status 500 with the
    decoder's message about one data character, no file is created and the
    model is not called. *)
Theorem predict_images_string (P : platform) (d : list (string * pyval))
    (c : ascii) (s : string) (w : world) :
  lookup_item "images" d = Some (PStr (String c s)) ->
  in_alphabet (byte_of_ascii c) = true ->
  predict P (Request (Ok (PDict d))) w
  = (Ok (Response
           (PDict [("status", PStr "error");
                   ("msg", PStr "Invalid base64-encoded string: number of data characters (1) cannot be 1 more than a multiple of 4")])
           500), w).
Proof.
  intros Hd Hc.
  unfold predict, try_except, predict_try, bind, lift, ret. simpl.
  rewrite Hd. simpl. unfold bind.
  rewrite image_item_eq, (b64decode_lone_character c Hc). reflexivity.
Qed.

(** X4.  An entry of "images" that is not a string (a number, null, a
    list, an object) is rejected by the decoder with a message naming its
    type: the response has status 500 and, the entries before it having
    been processed, the files are as before the request. *)
Theorem predict_entry_not_string (P : platform) (d : list (string * pyval))
    (imgs1 imgs2 : list pyval) (v : pyval) (rs : list pyval) (w w1 : world) :
  lookup_item "images" d = Some (PList (imgs1 ++ v :: imgs2)) ->
  is_str v = false ->
  for_images P imgs1 [] w = (Ok rs, w1) ->
  predict P (Request (Ok (PDict d))) w
  = (Ok (Response
           (PDict [("status", PStr "error");
                   ("msg", PStr ("argument should be a bytes-like object or ASCII string, not '"
                                 +:+ type_name v +:+ "'"))])
           500), w1)
  /\ files w1 = files w.
Proof.
  intros Hd Hv H1. split.
  - rewrite (predict_list P d _ w Hd) by (destruct imgs1; discriminate).
    rewrite for_images_app. unfold bind. rewrite H1. simpl. unfold bind.
    rewrite image_item_eq. destruct v; try discriminate Hv; reflexivity.
  - destruct (for_images_world P imgs1 [] w) as (calls & _ & _ & _ & Hok & _).
    rewrite H1 in Hok. simpl in Hok. apply Hok. eauto.
Qed.

(** X5.  A request that fails with status 500 fails in the same way,
    with the same response and the same world after it, when more images
    are appended to its list: the images after the failing one are not
    looked at. *)
Theorem predict_failure_final (P : platform) (d d' : list (string * pyval))
    (imgs more : list pyval) (w w' : world) (resp : response) :
  lookup_item "images" d' = Some (PList imgs) ->
  lookup_item "images" d = Some (PList (imgs ++ more)) ->
  predict P (Request (Ok (PDict d'))) w = (Ok resp, w') ->
  status_code resp = 500 ->
  predict P (Request (Ok (PDict d))) w = (Ok resp, w').
Proof.
  intros Hd' Hd Hrun Hcode.
  destruct imgs as [|img imgs].
  - exfalso. revert Hrun.
    unfold predict, try_except, predict_try, bind, lift, ret. simpl.
    rewrite Hd'. simpl. intros [= <- _]. discriminate Hcode.
  - rewrite (predict_list P d' _ w Hd') in Hrun by discriminate.
    rewrite (predict_list P d _ w Hd) by discriminate.
    rewrite for_images_app. unfold bind at 1.
    destruct (for_images P (img :: imgs) [] w) as [[items|e] w1].
    + injection Hrun as <- _. discriminate Hcode.
    + exact Hrun.
Qed.

(** ** Files and model calls of a request *)

(** X6.  A request never removes or changes a file that was there before
    it.  After it the files are the same as before, unless a write to a
    temporary file failed: then the response is the 500 response of that
    failure and there is exactly one more file, under a name that no file
    had, holding what had been written. *)
Theorem predict_files_kept (P : platform) (req : request) (w : world) :
  let name := Tempfile.mkstemp (files w) ".png" in
  let run := predict P req w in
  (forall path content,
      files w !! path = Some content -> files (snd run) !! path = Some content)
  /\ (files (snd run) = files w
      \/ exists content e n,
           write_fault P (<[name := []]> (files w)) content = Some (e, n) /\
           fst run = Ok (Response (PDict [("status", PStr "error");
                                          ("msg", PStr (exc_str e))]) 500) /\
           files w !! name = None /\
           files (snd run) = <[name := take n content]> (files w)).
Proof.
  cbv zeta.
  pose proof (TempfileFacts.mkstemp_fresh (files w) ".png") as Hfresh.
  assert (files (snd (predict P req w)) = files w
          \/ exists content e n,
               write_fault P (<[Tempfile.mkstemp (files w) ".png" := []]> (files w)) content
               = Some (e, n) /\
               fst (predict P req w) = Ok (failure e) /\
               files w !! Tempfile.mkstemp (files w) ".png" = None /\
               files (snd (predict P req w))
               = <[Tempfile.mkstemp (files w) ".png" := take n content]> (files w))
    as Hcases.
  { destruct (predict_run P req w) as [[-> _] | [imgs ->]]; [left; reflexivity|].
    destruct (for_images_world P imgs [] w) as (_ & _ & _ & _ & _ & Hfiles).
    destruct (for_images P imgs [] w) as [[items|e] w']; simpl in *.
    - destruct Hfiles as [H | (content & e & n & _ & [=] & _)]. now left.
    - destruct Hfiles as [H | (content & e' & n & Hfault & [= ->] & H)]; [now left|].
      right. exists content, e', n. auto. }
  split; [|exact Hcases].
  intros path content Hpath.
  destruct Hcases as [-> | (c & e & n & _ & _ & _ & ->)]; [exact Hpath|].
  rewrite lookup_insert_ne; [exact Hpath|]. intros <-. congruence.
Qed.

(** X7.  For a request with a list of N images, the model is called at
    most N times, and exactly N times when the response is a success; the
    calls are added after the calls made before, each on a path with the
    suffix [.png] that was no file before the request. *)
Theorem predict_model_calls (P : platform) (d : list (string * pyval))
    (imgs : list pyval) (w w' : world) (resp : response) :
  lookup_item "images" d = Some (PList imgs) ->
  predict P (Request (Ok (PDict d))) w = (Ok resp, w') ->
  exists calls,
    readtext_calls w' = (readtext_calls w ++ calls)%list /\
    (length calls <= length imgs)%nat /\
    (status_code resp = 200 -> length calls = length imgs) /\
    Forall (fun path =>
              files w !! path = None /\
              exists stem, path = stem +:+ ".png")
           calls.
Proof.
  intros Hd Hrun. destruct imgs as [|img imgs].
  - exists []. rewrite app_nil_r. revert Hrun.
    unfold predict, try_except, predict_try, bind, lift, ret. simpl.
    rewrite Hd. simpl. intros [= <- <-]. repeat split; auto.
  - rewrite (predict_list P d _ w Hd) in Hrun by discriminate.
    destruct (for_images_world P (img :: imgs) [] w)
      as (calls & Hcalls & Hlen & Hall & Hok & _).
    exists calls.
    destruct (for_images P (img :: imgs) [] w) as [[items|e] w1];
      injection Hrun as <- <-; simpl in *.
    + split; [exact Hcalls|]. split; [exact Hlen|]. split.
      * intros _. apply Hok. eauto.
      * eapply List.Forall_impl; [|exact Hall]. intros path ->.
        split; [apply TempfileFacts.mkstemp_fresh | apply mkstemp_suffix].
    + split; [exact Hcalls|]. split; [exact Hlen|]. split; [discriminate|].
      eapply List.Forall_impl; [|exact Hall]. intros path ->.
      split; [apply TempfileFacts.mkstemp_fresh | apply mkstemp_suffix].
Qed.

(** ** Requests one after the other, and batches *)

Section Composition.

Variable P : platform.

(** The response depends on the files only, not on the calls made so far. *)
Lemma predict_files_only (req : request) (w v : world) :
  files w = files v -> fst (predict P req w) = fst (predict P req v).
Proof.
  intros H. unfold predict, try_except, predict_try, bind, lift, ret.
  destruct (json req) as [data|e]; [|reflexivity].
  destruct (get data "images" (PList [])) as [images|e]; [|reflexivity].
  destruct (truthy images); simpl; [|reflexivity].
  destruct (iter images) as [imgs|e]; [|reflexivity].
  destruct (for_images_files_only P imgs [] w v H) as [Hr _].
  destruct (for_images P imgs [] w) as [[items|e] w1],
           (for_images P imgs [] v) as [[items'|e'] v1]; simpl in Hr;
    try discriminate; injection Hr as <-; reflexivity.
Qed.

(** The results of the loop over two lists, one after the other, are the
    results for the first followed by the results for the second, both
    taken in the same world; the first exception ends the loop. *)
Lemma for_images_app_results (imgs1 imgs2 : list pyval) (w : world) :
  fst (for_images P (imgs1 ++ imgs2) [] w)
  = match fst (for_images P imgs1 [] w) with
    | Ok rs1 =>
        match fst (for_images P imgs2 [] w) with
        | Ok rs2 => Ok (rs1 ++ rs2)%list
        | Raise e => Raise e
        end
    | Raise e => Raise e
    end.
Proof.
  rewrite for_images_app. unfold bind.
  destruct (for_images_world P imgs1 [] w) as (calls & _ & _ & _ & Hok & _).
  destruct (for_images P imgs1 [] w) as [[rs1|e] w1]; simpl in *; [|reflexivity].
  destruct (Hok ltac:(eauto)) as [_ Hfiles].
  rewrite for_images_acc.
  destruct (for_images_files_only P imgs2 [] w1 w Hfiles) as [Hr _].
  destruct (for_images P imgs2 [] w1) as [[rs2|e] w2]; simpl in *;
    rewrite <- Hr; reflexivity.
Qed.

Lemma predict_list_response (d : list (string * pyval)) (imgs : list pyval)
    (w : world) :
  lookup_item "images" d = Some (PList imgs) ->
  imgs <> [] ->
  fst (predict P (Request (Ok (PDict d))) w)
  = match fst (for_images P imgs [] w) with
    | Ok items => Ok (success items)
    | Raise e => Ok (failure e)
    end.
Proof.
  intros Hd Hne. rewrite (predict_list P d imgs w Hd Hne).
  destruct (for_images P imgs [] w) as [[items|e] w']; reflexivity.
Qed.

End Composition.

(** X8.  Where no write to a temporary file fails, the service keeps no
    state between requests: a request gets the same response after any
    other request as it gets without it. *)
Theorem predict_stateless (P : platform) (req1 req2 : request) (w : world) :
  (forall fs data, write_fault P fs data = None) ->
  fst (predict P req2 (snd (predict P req1 w))) = fst (predict P req2 w).
Proof.
  intros Hw. apply predict_files_only. now apply predict_files.
Qed.

(** X9.  A batch succeeds exactly when its two parts succeed as requests
    of their own in the same world, and its results are then the results
    of the first part followed by those of the second. *)
Theorem predict_batch_split (P : platform) (d d1 d2 : list (string * pyval))
    (imgs1 imgs2 : list pyval) (w : world) (results : list pyval) :
  lookup_item "images" d = Some (PList (imgs1 ++ imgs2)) ->
  lookup_item "images" d1 = Some (PList imgs1) ->
  lookup_item "images" d2 = Some (PList imgs2) ->
  imgs1 <> [] -> imgs2 <> [] ->
  fst (predict P (Request (Ok (PDict d))) w) = Ok (success results)
  <-> exists results1 results2,
        results = (results1 ++ results2)%list /\
        fst (predict P (Request (Ok (PDict d1))) w) = Ok (success results1) /\
        fst (predict P (Request (Ok (PDict d2))) w) = Ok (success results2).
Proof.
  intros Hd Hd1 Hd2 Hne1 Hne2.
  rewrite (predict_list_response P d _ w Hd) by (destruct imgs1; [congruence | discriminate]).
  rewrite (predict_list_response P d1 _ w Hd1 Hne1).
  rewrite (predict_list_response P d2 _ w Hd2 Hne2).
  rewrite for_images_app_results.
  destruct (fst (for_images P imgs1 [] w)) as [rs1|e1],
           (fst (for_images P imgs2 [] w)) as [rs2|e2]; split.
  - intros [= <-]. eauto.
  - intros (r1 & r2 & -> & [= <-] & [= <-]). reflexivity.
  - intros [=].
  - intros (r1 & r2 & _ & _ & [=]).
  - intros [=].
  - intros (r1 & r2 & _ & [=] & _).
  - intros [=].
  - intros (r1 & r2 & _ & [=] & _).
Qed.

(** ** When the reshaping fails *)

Lemma int_Ok_iff (x : num) : (exists z, int x = Ok z) <-> convertible x = true.
Proof.
  destruct x as [n|[s|s| |s m e]]; simpl; split; intros H;
    try reflexivity; try discriminate H; eauto;
    destruct H as [z H]; discriminate H.
Qed.

Lemma int_errors (x : num) (e : exn) : int x = Raise e -> In e reshape_errors.
Proof.
  destruct x as [n|[s|s| |s m ex]]; simpl; intros H; try discriminate H;
    injection H as <-; simpl; auto.
Qed.

Lemma bbox_list_Ok_iff (bb : list (list num)) :
  (exists bl, bbox_list bb = Ok bl) <-> Forall (fun p => good_point p = true) bb.
Proof.
  induction bb as [|p bb IH]; simpl.
  - split; [constructor | eauto].
  - split.
    + intros [bl H]. inv_result.
      constructor; [|apply IH; eauto].
      destruct p as [|x [|y p]]; try discriminate.
      unfold getitem in *. simpl in *. inv_result. simpl.
      apply andb_true_intro. split; apply int_Ok_iff; eauto.
    + intros H. inversion H as [|? ? Hp Hbb]; subst.
      apply IH in Hbb as [bl Hbl].
      destruct p as [|x [|y p]]; try discriminate Hp. simpl in Hp.
      apply andb_prop in Hp as [[zx Hx]%int_Ok_iff [zy Hy]%int_Ok_iff].
      unfold getitem. simpl. rewrite Hx. simpl. rewrite Hy. simpl.
      rewrite Hbl. simpl. eauto.
Qed.

Lemma bbox_list_errors (bb : list (list num)) (e : exn) :
  bbox_list bb = Raise e -> In e reshape_errors.
Proof.
  induction bb as [|p bb IH]; simpl; intros H; [discriminate|].
  unfold getitem in H.
  destruct p as [|x [|y p]]; simpl in H.
  - injection H as <-. simpl. auto.
  - destruct (int x) as [zx|ex] eqn:Hx; simpl in H.
    + injection H as <-. simpl. auto.
    + injection H as <-. eapply int_errors; eauto.
  - destruct (int x) as [zx|ex] eqn:Hx; simpl in H;
      [|injection H as <-; eapply int_errors; eauto].
    destruct (int y) as [zy|ey] eqn:Hy; simpl in H;
      [|injection H as <-; eapply int_errors; eauto].
    destruct (bbox_list bb) as [bl|eb]; simpl in H; [discriminate|].
    injection H as <-. now apply IH.
Qed.

Lemma for_items_Ok_iff (dets : list detection) :
  forall a b c,
    (exists r, for_items dets a b c = Ok r)
    <-> Forall (fun d => Forall (fun p => good_point p = true) (bbox d)) dets.
Proof.
  induction dets as [|d dets IH]; intros a b c; simpl.
  - split; [constructor | eauto].
  - split.
    + intros [r H]. destruct (bbox_list (bbox d)) as [bl|e] eqn:Hbl; [|discriminate].
      simpl in H. constructor.
      * apply bbox_list_Ok_iff. eauto.
      * eapply IH. eauto.
    + intros H. inversion H as [|? ? Hd Hdets]; subst.
      apply bbox_list_Ok_iff in Hd as [bl ->]. simpl. now apply IH.
Qed.

Lemma for_items_errors (dets : list detection) :
  forall a b c e, for_items dets a b c = Raise e -> In e reshape_errors.
Proof.
  induction dets as [|d dets IH]; intros a b c e; simpl; [discriminate|].
  destruct (bbox_list (bbox d)) as [bl|eb] eqn:Hbl; simpl.
  - apply IH.
  - intros [= <-]. eapply bbox_list_errors; eauto.
Qed.

(** X10.  The reshaping of a model answer succeeds exactly when every
    point of every detection has at least two coordinates and its first
    two are integers or finite floats; the number of points of a region
    and any further coordinates are not looked at. *)
Theorem result_item_succeeds_iff (ocr_result : list detection) :
  (exists item, result_item ocr_result = Ok item)
  <-> Forall (fun d => Forall (fun p => good_point p = true) (bbox d)) ocr_result.
Proof.
  rewrite <- (for_items_Ok_iff ocr_result [] [] []). unfold result_item.
  split.
  - intros [item H]. destruct (for_items ocr_result [] [] []); [eauto | discriminate].
  - intros [[[a b] c] ->]. simpl. eauto.
Qed.

(** X11.  The reshaping raises nothing but the index error of a point
    with fewer than two coordinates and the value and overflow errors of
    a coordinate that is NaN or infinite. *)
Theorem result_item_errors (ocr_result : list detection) (e : exn) :
  result_item ocr_result = Raise e ->
  In e [Exn "IndexError" "list index out of range";
        Exn "ValueError" "cannot convert float NaN to integer";
        Exn "OverflowError" "cannot convert float infinity to integer"].
Proof.
  unfold result_item. intros H.
  destruct (for_items ocr_result [] [] []) as [[[a b] c]|e'] eqn:Hitems;
    simpl in H; [discriminate|].
  injection H as <-. exact (for_items_errors _ _ _ _ _ Hitems).
Qed.

(** ** Characters the decoder skips, in a request *)

(** X12.  A character that is ASCII, not the pad and not in the base64
    alphabet (a line break, a blank, an exclamation mark) may stand
    anywhere in an image entry: the request gets the same response, and
    leaves the same world, as without it. *)
Theorem predict_skipped_character (P : platform) (d d' : list (string * pyval))
    (imgs1 imgs2 : list pyval) (s t : string) (c : ascii) (w : world) :
  lookup_item "images" d = Some (PList (imgs1 ++ PStr (s +:+ String c t) :: imgs2)) ->
  lookup_item "images" d' = Some (PList (imgs1 ++ PStr (s +:+ t) :: imgs2)) ->
  skipped c = true ->
  predict P (Request (Ok (PDict d))) w = predict P (Request (Ok (PDict d'))) w.
Proof.
  intros Hd Hd' Hc.
  apply (predict_same_decoding P d d' _ _ w Hd Hd').
  apply Forall2_app.
  - apply Forall_Forall2_diag, Forall_forall. reflexivity.
  - constructor; [now apply b64decode_skip|].
    apply Forall_Forall2_diag, Forall_forall. reflexivity.
Qed.

(** ** The model's answer in the response *)

(** X13.  When the model raises on an image, the entries before it having
    been processed, the response has status 500 with the model's message,
    the model has been called on the temporary file of the image, and the
    files are as before the request: the temporary file is removed. *)
Theorem predict_model_failure (P : platform) (d : list (string * pyval))
    (imgs1 imgs2 : list pyval) (img : pyval) (content : list Z) (e : exn)
    (rs : list pyval) (w w1 : world) :
  lookup_item "images" d = Some (PList (imgs1 ++ img :: imgs2)) ->
  for_images P imgs1 [] w = (Ok rs, w1) ->
  b64decode img = Ok content ->
  open_fault P (files w) = None ->
  write_fault P (<[Tempfile.mkstemp (files w) ".png" := []]> (files w)) content = None ->
  reader P content = Raise e ->
  let run := predict P (Request (Ok (PDict d))) w in
  fst run = Ok (Response (PDict [("status", PStr "error");
                                 ("msg", PStr (exc_str e))]) 500)
  /\ files (snd run) = files w
  /\ readtext_calls (snd run)
     = (readtext_calls w1 ++ [Tempfile.mkstemp (files w) ".png"])%list.
Proof.
  intros Hd H1 Hdec Hopen Hwrite Hread. cbv zeta.
  assert (files w1 = files w) as Hfiles.
  { destruct (for_images_world P imgs1 [] w) as (calls & _ & _ & _ & Hok & _).
    rewrite H1 in Hok. simpl in Hok. apply Hok. eauto. }
  rewrite (predict_list P d _ w Hd) by (destruct imgs1; discriminate).
  rewrite for_images_app. unfold bind. rewrite H1. simpl. unfold bind.
  rewrite image_item_eq, Hdec, Hfiles, Hopen. cbv zeta.
  rewrite Hwrite, Hread. simpl. auto.
Qed.

(** X14.  The item of an image holds the model's texts and confidences
    unchanged and in the model's order, and one region per detection with
    as many points as the model gave it. *)
Theorem result_item_passes_through (ocr_result : list detection) (item : pyval) :
  result_item ocr_result = Ok item ->
  field "rec_texts" item = Some (PList (map (fun d => PStr (text d)) ocr_result))
  /\ field "rec_scores" item
     = Some (PList (map (fun d => PFloat (confidence d)) ocr_result))
  /\ exists dt_polys,
       field "dt_polys" item = Some (PList dt_polys) /\
       Forall2 (fun d quad =>
                  exists points,
                    quad = PList points /\ length points = length (bbox d))
               ocr_result dt_polys.
Proof.
  intros H. apply result_item_Ok in H as (dt & -> & Hdt).
  split; [reflexivity|]. split; [reflexivity|].
  exists dt. split; [reflexivity|].
  eapply Forall2_impl; [exact Hdt|].
  intros d q (bl & -> & Hbl). exists bl. split; [reflexivity|].
  symmetry. exact (Forall2_length _ _ _ Hbl).
Qed.

(** ** The further properties at work *)

(** [predict_body_not_object] on a body that is the empty list. *)
Lemma predict_body_not_object_witness :
  predict sound_platform (Request (Ok (PList []))) empty_world
  = (Ok (Response (PDict [("status", PStr "error");
                          ("msg", PStr ("'" +:+ type_name (PList [])
                                        +:+ "' object has no attribute 'get'"))])
                  500), empty_world).
Proof.
  apply (predict_body_not_object sound_platform (PList []) empty_world).
  reflexivity.
Defined.

(** [predict_images_not_iterable] on a body with 7 under "images". *)
Lemma predict_images_not_iterable_witness :
  predict sound_platform (Request (Ok (PDict [("images", PInt 7)]))) empty_world
  = (Ok (Response (PDict [("status", PStr "error");
                          ("msg", PStr ("'" +:+ type_name (PInt 7)
                                        +:+ "' object is not iterable"))])
                  500), empty_world).
Proof.
  apply (predict_images_not_iterable sound_platform [("images", PInt 7)] (PInt 7)
           empty_world); reflexivity.
Defined.

(** [predict_images_string] on a body with the image itself, not a list
    of it, under "images". *)
Lemma predict_images_string_witness :
  predict sound_platform (Request (Ok (PDict [("images", PStr png_b64)]))) empty_world
  = (Ok (Response
           (PDict [("status", PStr "error");
                   ("msg", PStr "Invalid base64-encoded string: number of data characters (1) cannot be 1 more than a multiple of 4")])
           500), empty_world).
Proof.
  apply (predict_images_string sound_platform [("images", PStr png_b64)]
           "i"%char "VBORw0KGgo=" empty_world); reflexivity.
Defined.

(** [predict_entry_not_string] on an image followed by a number. *)
Lemma predict_entry_not_string_witness :
  predict sound_platform (Request (Ok (PDict png_then_number))) empty_world
  = (Ok (Response
           (PDict [("status", PStr "error");
                   ("msg", PStr ("argument should be a bytes-like object or ASCII string, not '"
                                 +:+ type_name (PInt 5) +:+ "'"))])
           500), served_world)
  /\ files served_world = files empty_world.
Proof.
  apply (predict_entry_not_string sound_platform png_then_number
           [PStr png_b64] [] (PInt 5) [sample_item] empty_world served_world).
  - reflexivity.
  - reflexivity.
  - vm_compute. reflexivity.
Defined.

(** [predict_failure_final]: an image appended to the request whose second
    image lacks its padding. *)
Lemma predict_failure_final_witness :
  predict sound_platform (Request (Ok (PDict unpadded_then_png))) empty_world
  = (Ok (failure incorrect_padding), served_world).
Proof.
  apply (predict_failure_final sound_platform unpadded_then_png unpadded
           [PStr png_b64; PStr "aGk"] [PStr png_b64] empty_world served_world
           (failure incorrect_padding)).
  - reflexivity.
  - reflexivity.
  - vm_compute. reflexivity.
  - reflexivity.
Defined.

(** [predict_model_calls] on the request with one image. *)
Lemma predict_model_calls_witness :
  exists calls,
    readtext_calls served_world = (readtext_calls empty_world ++ calls)%list /\
    (length calls <= length [PStr png_b64])%nat /\
    (status_code (success [sample_item]) = 200 ->
     length calls = length [PStr png_b64]) /\
    Forall (fun path =>
              files empty_world !! path = None /\
              exists stem, path = stem +:+ ".png")
           calls.
Proof.
  apply (predict_model_calls sound_platform one_png [PStr png_b64]
           empty_world served_world (success [sample_item])).
  - reflexivity.
  - vm_compute. reflexivity.
Defined.

(** [predict_stateless]: the request with the unpadded image after the
    request with one image. *)
Lemma predict_stateless_witness :
  fst (predict sound_platform (Request (Ok (PDict unpadded)))
         (snd (predict sound_platform one_png_request empty_world)))
  = fst (predict sound_platform (Request (Ok (PDict unpadded))) empty_world).
Proof.
  apply (predict_stateless sound_platform one_png_request
           (Request (Ok (PDict unpadded))) empty_world).
  intros fs data. reflexivity.
Defined.

(** [predict_batch_split]: two images, and each of them alone. *)
Lemma predict_batch_split_witness :
  fst (predict sound_platform (Request (Ok (PDict two_png))) empty_world)
  = Ok (success [sample_item; sample_item])
  <-> exists results1 results2,
        [sample_item; sample_item] = (results1 ++ results2)%list /\
        fst (predict sound_platform (Request (Ok (PDict one_png))) empty_world)
        = Ok (success results1) /\
        fst (predict sound_platform (Request (Ok (PDict one_png))) empty_world)
        = Ok (success results2).
Proof.
  apply (predict_batch_split sound_platform two_png one_png one_png
           [PStr png_b64] [PStr png_b64] empty_world [sample_item; sample_item]).
  - reflexivity.
  - reflexivity.
  - reflexivity.
  - discriminate.
  - discriminate.
Defined.

(** [result_item_errors] on a detection with a coordinate that is NaN. *)
Lemma result_item_errors_witness :
  In (Exn "ValueError" "cannot convert float NaN to integer")
     [Exn "IndexError" "list index out of range";
      Exn "ValueError" "cannot convert float NaN to integer";
      Exn "OverflowError" "cannot convert float infinity to integer"].
Proof.
  apply (result_item_errors [nan_detection]
           (Exn "ValueError" "cannot convert float NaN to integer")).
  reflexivity.
Defined.

(** [predict_skipped_character]: an exclamation mark in the image. *)
Lemma predict_skipped_character_witness :
  predict sound_platform
    (Request (Ok (PDict [("images", PList [PStr "iVBO!Rw0KGgo="])]))) empty_world
  = predict sound_platform (Request (Ok (PDict one_png))) empty_world.
Proof.
  apply (predict_skipped_character sound_platform
           [("images", PList [PStr "iVBO!Rw0KGgo="])] one_png
           [] [] "iVBO" "Rw0KGgo=" "!"%char empty_world).
  - reflexivity.
  - reflexivity.
  - reflexivity.
Defined.

(** [predict_model_failure] on the request with one image, served by the
    model that gives up on every file. *)
Lemma predict_model_failure_witness :
  let run := predict mute_platform one_png_request empty_world in
  fst run = Ok (Response (PDict [("status", PStr "error");
                                 ("msg", PStr (exc_str silence))]) 500)
  /\ files (snd run) = files empty_world
  /\ readtext_calls (snd run)
     = (readtext_calls empty_world
        ++ [Tempfile.mkstemp (files empty_world) ".png"])%list.
Proof.
  apply (predict_model_failure mute_platform one_png [] [] (PStr png_b64)
           png_signature silence [] empty_world empty_world);
    reflexivity.
Defined.

(** [result_item_passes_through] on the one detection of [png_reader]. *)
Lemma result_item_passes_through_witness :
  field "rec_texts" sample_item
  = Some (PList (map (fun d => PStr (text d)) [sample_detection]))
  /\ field "rec_scores" sample_item
     = Some (PList (map (fun d => PFloat (confidence d)) [sample_detection]))
  /\ exists dt_polys,
       field "dt_polys" sample_item = Some (PList dt_polys) /\
       Forall2 (fun d quad =>
                  exists points,
                    quad = PList points /\ length points = length (bbox d))
               [sample_detection] dt_polys.
Proof.
  apply (result_item_passes_through [sample_detection] sample_item).
  reflexivity.
Defined.

(** [predict_files_kept] on the request with one image while the volume
    is full. *)
Lemma predict_files_kept_witness :
  let name := Tempfile.mkstemp (files empty_world) ".png" in
  let run := predict full_platform one_png_request empty_world in
  (forall path content,
      files empty_world !! path = Some content ->
      files (snd run) !! path = Some content)
  /\ (files (snd run) = files empty_world
      \/ exists content e n,
           write_fault full_platform (<[name := []]> (files empty_world)) content
           = Some (e, n) /\
           fst run = Ok (Response (PDict [("status", PStr "error");
                                          ("msg", PStr (exc_str e))]) 500) /\
           files empty_world !! name = None /\
           files (snd run) = <[name := take n content]> (files empty_world)).
Proof.
  exact (predict_files_kept full_platform one_png_request empty_world).
Defined.

(** [result_item_succeeds_iff] on the one detection of [png_reader]. *)
Lemma result_item_succeeds_iff_witness :
  (exists item, result_item [sample_detection] = Ok item)
  <-> Forall (fun d => Forall (fun p => good_point p = true) (bbox d))
             [sample_detection].
Proof.
  exact (result_item_succeeds_iff [sample_detection]).
Defined.

(** * The response to a list of images, from the platform alone *)

(** ** Items in the order of the images *)

Lemma result_item_reshaped (ocr_result : list detection) (item : pyval) :
  result_item ocr_result = Ok item -> reshaped ocr_result item.
Proof.
  intros H. apply result_item_Ok in H as (dt & -> & Hdt).
  exists dt. split; [reflexivity|].
  eapply Forall2_impl; [exact Hdt|].
  intros d q (bl & -> & Hbl). exists bl. split; [reflexivity|].
  eapply Forall2_impl; [exact Hbl | apply point_of_truncated].
Qed.

(** C1.  For a request whose "images" field is a list of N >= 1 strings and
    whose processing raises no exception, the response is the success
    response, its "results" list has N items, and the i-th item is the
    reshaped answer of the model for the decoded i-th string: its texts
    and confidences in order, and its regions with truncated coordinates. *)
Theorem predict_results_aligned (P : platform) (d : list (string * pyval))
    (images : list string) (w w' : world) (resp : response) :
  lookup_item "images" d = Some (PList (map PStr images)) ->
  (1 <= length images)%nat ->
  predict_try P (Request (Ok (PDict d))) w = (Ok resp, w') ->
  exists results,
    predict P (Request (Ok (PDict d))) w = (Ok resp, w') /\
    status_code resp = 200 /\
    field "status" (body resp) = Some (PStr "000") /\
    field "results" (body resp) = Some (PList results) /\
    length results = length images /\
    Forall2 (fun img_b64 item =>
               exists content ocr_result,
                 b64decode (PStr img_b64) = Ok content /\
                 reader P content = Ok ocr_result /\
                 reshaped ocr_result item)
            images results.
Proof.
  intros Hd Hn Htry.
  destruct (predict_cases P (Request (Ok (PDict d))) w)
    as [(e & w1 & H & _) | [(_ & _ & data & imgv & Hj & Hg & Ht) | (data & imgv & imgs & items & w1 & H & Hp & Hj & Hg & _ & Hi & Hloop)]].
  - rewrite H in Htry. discriminate.
  - simpl in Hj, Hg. injection Hj as <-. simpl in Hg. rewrite Hd in Hg.
    injection Hg as <-. destruct images; [simpl in Hn; lia | discriminate].
  - rewrite H in Htry. injection Htry as <- <-.
    simpl in Hj. injection Hj as <-. simpl in Hg. rewrite Hd in Hg.
    injection Hg as <-. simpl in Hi. injection Hi as <-.
    apply for_images_Ok in Hloop as (items' & -> & Hall). simpl.
    exists items'. repeat split; try assumption.
    + apply Forall2_length in Hall. now rewrite length_map in Hall.
    + clear - Hall. revert items' Hall.
      induction images as [|s images IH]; intros items' Hall;
        inversion Hall as [|? ? ? ? Hitem Hrest]; subst; constructor; auto.
      destruct Hitem as (content & dets & Hdec & Hread & Hitem).
      exists content, dets. auto using result_item_reshaped.
Qed.

(** [predict_results_aligned] on a request with two images that the model
    tells apart: the items come in the order of the images. *)
Lemma predict_results_aligned_witness :
  exists results,
    predict page_platform (Request (Ok (PDict two_pages))) empty_world
    = (Ok (success [page1_item; page2_item]), two_pages_served) /\
    status_code (success [page1_item; page2_item]) = 200 /\
    field "status" (body (success [page1_item; page2_item])) = Some (PStr "000") /\
    field "results" (body (success [page1_item; page2_item]))
    = Some (PList results) /\
    length results = length [page1_b64; page2_b64] /\
    Forall2 (fun img_b64 item =>
               exists content ocr_result,
                 b64decode (PStr img_b64) = Ok content /\
                 reader page_platform content = Ok ocr_result /\
                 reshaped ocr_result item)
            [page1_b64; page2_b64] results.
Proof.
  apply (predict_results_aligned page_platform two_pages [page1_b64; page2_b64]
           empty_world two_pages_served (success [page1_item; page2_item])).
  - reflexivity.
  - simpl. lia.
  - vm_compute. reflexivity.
Defined.

(** ** Every cause of an exception gives the error response *)

Section Causes.

Variable P : platform.

Lemma processed_image_item (img : pyval) (w : world) :
  processed P (files w) img ->
  exists item,
    image_item P img w
    = (Ok item,
       World (files w)
             (readtext_calls w ++ [Tempfile.mkstemp (files w) ".png"])).
Proof.
  intros (content & dets & Hdec & Hopen & Hwrite & Hread & Hgood).
  apply (for_items_Ok_iff dets [] [] []) in Hgood as [[[a b] c] Hitems].
  rewrite image_item_eq, Hdec, Hopen. cbv zeta. rewrite Hwrite, Hread.
  unfold result_item. simpl. rewrite Hitems. simpl. eauto.
Qed.

Lemma processed_for_images (imgs : list pyval) :
  forall rs w,
    Forall (processed P (files w)) imgs ->
    exists items w1,
      for_images P imgs rs w = (Ok (rs ++ items)%list, w1) /\
      length items = length imgs /\ files w1 = files w.
Proof.
  induction imgs as [|img imgs IH]; intros rs w Hall; simpl.
  - exists [], w. unfold ret. now rewrite app_nil_r.
  - inversion Hall as [|? ? Himg Hrest]; subst.
    destruct (processed_image_item img w Himg) as [item Hitem].
    unfold bind. rewrite Hitem.
    destruct (IH (rs ++ [item])%list
                 (World (files w)
                    (readtext_calls w ++ [Tempfile.mkstemp (files w) ".png"]))
                 Hrest)
      as (items & w1 & Hloop & Hlen & Hfiles).
    exists (item :: items), w1. rewrite Hloop, <- app_assoc. simpl.
    repeat split; [now rewrite Hlen | exact Hfiles].
Qed.

Lemma int_convertible (x : num) : convertible x = true -> exists z, int x = Ok z.
Proof. apply int_Ok_iff. Qed.

Lemma point_failure_raises (p : list num) (rest : list (list num)) (e : exn) :
  point_failure p e -> bbox_list (p :: rest) = Raise e.
Proof.
  unfold point_failure, coordinate_failure.
  intros [H | (x0 & Hx & Hconv & H)];
    destruct p as [|x [|y p]]; simpl in *; unfold getitem; simpl;
    try discriminate Hx.
  - now subst.
  - now rewrite H.
  - now rewrite H.
  - injection Hx as <-. destruct (int_convertible x Hconv) as [z ->].
    simpl. now subst.
  - injection Hx as <-. destruct (int_convertible x Hconv) as [z ->].
    simpl. now rewrite H.
Qed.

Lemma bbox_failure_raises (bb : list (list num)) (e : exn) :
  bbox_failure bb e -> bbox_list bb = Raise e.
Proof.
  intros (good & p & rest & -> & Hgood & Hp).
  induction Hgood as [|g good Hg _ IH]; simpl app.
  - now apply point_failure_raises.
  - destruct g as [|x [|y g]]; try discriminate Hg. simpl in Hg.
    apply andb_prop in Hg as [[zx Hx]%int_convertible [zy Hy]%int_convertible].
    simpl. unfold getitem. simpl. rewrite Hx. simpl. rewrite Hy. simpl.
    now rewrite IH.
Qed.

Lemma reshape_failure_raises (dets : list detection) (e : exn) :
  reshape_failure dets e -> result_item dets = Raise e.
Proof.
  intros (good & d & rest & -> & Hgood & Hd%bbox_failure_raises).
  assert (forall a b c, for_items (good ++ d :: rest) a b c = Raise e) as H.
  { induction Hgood as [|g good Hg _ IH]; intros a b c; simpl.
    - now rewrite Hd.
    - apply bbox_list_Ok_iff in Hg as [bl ->]. simpl. apply IH. }
  unfold result_item. now rewrite H.
Qed.

Lemma image_failure_raises (img : pyval) (e : exn) (w : world) :
  image_failure P (files w) img e ->
  exists w', image_item P img w = (Raise e, w').
Proof.
  intros H. rewrite image_item_eq.
  destruct H as [Hdec | content Hdec Hopen | content n Hdec Hopen Hwrite
                 | content Hdec Hopen Hwrite Hread
                 | content dets Hdec Hopen Hwrite Hread Hshape].
  - rewrite Hdec. eauto.
  - rewrite Hdec, Hopen. eauto.
  - rewrite Hdec, Hopen. cbv zeta. rewrite Hwrite. eauto.
  - rewrite Hdec, Hopen. cbv zeta. rewrite Hwrite, Hread. simpl. eauto.
  - rewrite Hdec, Hopen. cbv zeta. rewrite Hwrite, Hread. simpl.
    rewrite (reshape_failure_raises dets e Hshape). eauto.
Qed.

(** A request that meets an exception raises it in the body of the
    handler. *)
Lemma request_failure_raises (req : request) (w : world) (e : exn) :
  request_failure P req w e ->
  exists w', predict_try P req w = (Raise e, w').
Proof.
  intros H. unfold predict_try, bind, lift, ret.
  destruct H as [Hj | data Hj Hg | data images Hj Hg Ht Hi
                 | data images imgs1 imgs2 img Hj Hg Ht Hi Hall Himg].
  - rewrite Hj. eauto.
  - rewrite Hj, Hg. eauto.
  - rewrite Hj, Hg, Ht. simpl. rewrite Hi. eauto.
  - rewrite Hj, Hg, Ht. simpl. rewrite Hi.
    destruct (processed_for_images imgs1 [] w Hall) as (rs & w1 & H1 & _ & Hfiles).
    rewrite <- Hfiles in Himg.
    destruct (image_failure_raises img e w1 Himg) as [w2 H2].
    rewrite for_images_app. unfold bind. rewrite H1. simpl. unfold bind.
    rewrite H2. eauto.
Qed.

End Causes.

(** C5.  Whatever makes the processing of a request raise an exception [e]
    (a body that is not JSON or has no [get], images that cannot be
    iterated, or, after any number of images that went through, an image
    that fails in the decoder, at the creation or the writing of its file,
    in the model or in the reshaping), the response has status 500 and the
    body [{"status": "error", "msg": str(e)}]; it has no "results",
    whatever had been collected for the images before. *)
Theorem predict_exception_response (P : platform) (req : request) (w : world)
    (e : exn) :
  request_failure P req w e ->
  exists resp w',
    predict P req w = (Ok resp, w') /\
    status_code resp = 500 /\
    body resp = PDict [("status", PStr "error"); ("msg", PStr (exc_str e))] /\
    field "results" (body resp) = None.
Proof.
  intros H. destruct (request_failure_raises P req w e H) as [w' Htry].
  exists (failure e), w'. unfold predict, try_except. rewrite Htry.
  repeat split.
Qed.

Lemma png_processed : processed sound_platform ∅ (PStr png_b64).
Proof.
  exists png_signature, [sample_detection].
  repeat split; repeat constructor.
Defined.

Lemma blank_fails : image_failure sound_platform ∅ (PStr "AAAA") unreadable.
Proof. apply (model_failure _ _ _ _ [0; 0; 0]); reflexivity. Defined.

(** [predict_exception_response] on a request whose second image the model
    rejects, the first having gone through. *)
Lemma predict_exception_response_witness :
  exists resp w',
    predict sound_platform (Request (Ok (PDict png_then_blank))) empty_world
    = (Ok resp, w') /\
    status_code resp = 500 /\
    body resp = PDict [("status", PStr "error");
                       ("msg", PStr (exc_str unreadable))] /\
    field "results" (body resp) = None.
Proof.
  apply (predict_exception_response sound_platform
           (Request (Ok (PDict png_then_blank))) empty_world unreadable).
  apply (loop_failure _ _ _ _ (PDict png_then_blank)
           (PList [PStr png_b64; PStr "AAAA"]) [PStr png_b64] [] (PStr "AAAA")).
  - reflexivity.
  - reflexivity.
  - reflexivity.
  - reflexivity.
  - constructor; [exact png_processed | constructor].
  - exact blank_fails.
Defined.

(** ** Every exception has one of these causes *)

Section Exhaustive.

Variable P : platform.

Lemma bbox_list_raises_inv (bb : list (list num)) (e : exn) :
  bbox_list bb = Raise e -> bbox_failure bb e.
Proof.
  induction bb as [|p bb IH]; simpl; intros H; [discriminate|].
  unfold getitem in H.
  assert (point_failure p e \/
          (good_point p = true /\ bbox_list bb = Raise e)) as [Hp | [Hp Hbb]].
  { unfold point_failure, coordinate_failure.
    destruct p as [|x [|y p]]; simpl in *.
    - injection H as <-. left; left. reflexivity.
    - destruct (int x) as [zx|ex] eqn:Hx; simpl in H.
      + injection H as <-. left; right. exists x.
        split; [reflexivity|]. split; [apply int_Ok_iff; eauto | reflexivity].
      + injection H as <-. left; left. first [exact Hx | reflexivity].
    - destruct (int x) as [zx|ex] eqn:Hx; simpl in H;
        [|injection H as <-; left; left; first [exact Hx | reflexivity]].
      destruct (int y) as [zy|ey] eqn:Hy; simpl in H.
      + destruct (bbox_list bb) as [bl|eb]; simpl in H; [discriminate|].
        injection H as <-. right. split; [|reflexivity].
        apply andb_true_intro. split; apply int_Ok_iff; eauto.
      + injection H as <-. left; right. exists x.
        split; [reflexivity|]. split; [apply int_Ok_iff; eauto | first [exact Hy | reflexivity]]. }
  - exists [], p, bb. repeat split; [constructor | exact Hp].
  - destruct (IH Hbb) as (good & q & rest & -> & Hgood & Hq).
    exists (p :: good), q, rest. repeat split; [now constructor | exact Hq].
Qed.

Lemma for_items_raises_inv (dets : list detection) :
  forall a b c e, for_items dets a b c = Raise e -> reshape_failure dets e.
Proof.
  induction dets as [|d dets IH]; intros a b c e; simpl; [discriminate|].
  destruct (bbox_list (bbox d)) as [bl|eb] eqn:Hbl; simpl.
  - intros H. destruct (IH _ _ _ _ H) as (good & d' & rest & -> & Hgood & Hd').
    exists (d :: good), d', rest. repeat split; [|exact Hd'].
    constructor; [|exact Hgood]. apply bbox_list_Ok_iff. eauto.
  - intros [= <-]. exists [], d, dets.
    repeat split; [constructor | now apply bbox_list_raises_inv].
Qed.

Lemma result_item_raises_inv (dets : list detection) (e : exn) :
  result_item dets = Raise e -> reshape_failure dets e.
Proof.
  unfold result_item.
  destruct (for_items dets [] [] []) as [[[a b] c]|e'] eqn:H; simpl;
    [discriminate|].
  intros [= <-]. exact (for_items_raises_inv _ _ _ _ _ H).
Qed.

Lemma image_item_outcome (img : pyval) (w : world) :
  (processed P (files w) img /\
   exists item w', image_item P img w = (Ok item, w') /\ files w' = files w)
  \/ (exists e w', image_failure P (files w) img e /\
                   image_item P img w = (Raise e, w')).
Proof.
  rewrite image_item_eq.
  destruct (b64decode img) as [content|e] eqn:Hdec;
    [|right; exists e, w; split; [now apply decode_failure | reflexivity]].
  destruct (open_fault P (files w)) as [e|] eqn:Hopen;
    [right; exists e, w; split; [now apply (create_failure _ _ _ _ content) | reflexivity]|].
  cbv zeta.
  destruct (write_fault P _ content) as [[e n]|] eqn:Hwrite.
  { right. eexists e, _. split; [|reflexivity].
    now apply (write_failure _ _ _ _ content n). }
  destruct (reader P content) as [dets|e] eqn:Hread; simpl.
  - destruct (result_item dets) as [item|e] eqn:Hitem.
    + left. split.
      * exists content, dets. repeat split; try assumption.
        apply (for_items_Ok_iff dets [] [] []). unfold result_item in Hitem.
        destruct (for_items dets [] [] []); [eauto | discriminate].
      * eexists item, _. split; reflexivity.
    + right. eexists e, _. split; [|reflexivity].
      apply (answer_failure _ _ _ _ content dets); try assumption.
      now apply result_item_raises_inv.
  - right. eexists e, _. split; [|reflexivity].
    now apply (model_failure _ _ _ _ content).
Qed.

Lemma for_images_raises_inv (imgs : list pyval) :
  forall rs w e w',
    for_images P imgs rs w = (Raise e, w') ->
    exists imgs1 img imgs2,
      imgs = (imgs1 ++ img :: imgs2)%list /\
      Forall (processed P (files w)) imgs1 /\
      image_failure P (files w) img e.
Proof.
  induction imgs as [|img imgs IH]; intros rs w e w'; simpl; [discriminate|].
  unfold bind.
  destruct (image_item_outcome img w)
    as [[Hproc (item & w1 & -> & Hfiles)] | (e1 & w1 & Hfail & ->)].
  - intros H. destruct (IH _ _ _ _ H) as (imgs1 & bad & imgs2 & -> & Hall & Hbad).
    rewrite Hfiles in Hall, Hbad.
    exists (img :: imgs1), bad, imgs2. repeat split; [now constructor | exact Hbad].
  - intros [= <- _]. exists [], img, imgs. repeat split; [constructor | exact Hfail].
Qed.

(** A response with status 500 carries the message of an exception that
    the request met for one of the causes. *)
Lemma exception_has_cause (req : request) (w w' : world) (resp : response) :
  predict P req w = (Ok resp, w') ->
  status_code resp = 500 ->
  exists e, request_failure P req w e /\ resp = failure e.
Proof.
  unfold predict, try_except, predict_try, bind, lift, ret.
  destruct (json req) as [data|e] eqn:Hj.
  2:{ intros [= <- _] _. exists e. split; [now apply body_failure | reflexivity]. }
  destruct (get data "images" (PList [])) as [images|e] eqn:Hg.
  2:{ intros [= <- _] _. exists e. split; [now apply (get_failure _ _ _ _ data) | reflexivity]. }
  destruct (truthy images) eqn:Ht; simpl.
  2:{ intros [= <- _] Hcode. discriminate Hcode. }
  destruct (iter images) as [imgs|e] eqn:Hi.
  2:{ intros [= <- _] _. exists e.
      split; [now apply (iter_failure _ _ _ _ data images) | reflexivity]. }
  destruct (for_images P imgs [] w) as [[items|e] w1] eqn:Hloop.
  - intros [= <- _] Hcode. discriminate Hcode.
  - intros [= <- _] _. exists e. split; [|reflexivity].
    destruct (for_images_raises_inv _ _ _ _ _ Hloop)
      as (imgs1 & img & imgs2 & -> & Hall & Hbad).
    now apply (loop_failure _ _ _ _ data images imgs1 imgs2 img).
Qed.

End Exhaustive.
